(** * Layout conversion between host images and device arrays

    A shallow embedding of [src/cuda/cam-arrayfire/af_helpers.cpp]
    (the OpenCV <-> ArrayFire marshalling helpers) and of
    [src/cuda/mm/thrust/thrust/detail/device/cuda/free.h], with the
    properties the specification states about them.

    Host images ([cv::Mat]) are headers pointing into a store of pixel
    buffers, because [mat_to_array_] converts its argument in place; device
    arrays ([af::array]) are values in column-major order. *)

From Stdlib Require Import ZArith List Lia.
From Stdlib Require Import SpecFloat.
From stdpp Require Import base option list gmap strings.

Open Scope Z_scope.

(** ** Sample values *)

Module Sample.

(** IEEE 754 binary32 and binary64 values, as the standard library
    specifies them: [spec_float] read at precision 24 / exponent bound 128
    and at precision 53 / exponent bound 1024. *)
Definition f32 : Type := spec_float.
Definition f64 : Type := spec_float.

Definition prec32 : Z := 24.
Definition emax32 : Z := 128.
Definition prec64 : Z := 53.
Definition emax64 : Z := 1024.

(** [saturate_cast<float>] of an integer sample (depths 8U, 8S, 16U, 16S,
    32S): the C++ conversion [(float)v], round to nearest even. *)
Definition float_of_int (v : Z) : f32 :=
  binary_normalize prec32 emax32 v 0 false.

(** [saturate_cast<float>] of a double: [(float)v]. *)
Definition float_of_double (v : f64) : f32 :=
  match v with
  | S754_finite s m e => binary_round prec32 emax32 s m e
  | _ => v
  end.

(** [as(af::f64)] on one f32 element. *)
Definition double_of_float (v : f32) : f64 :=
  match v with
  | S754_finite s m e => binary_round prec64 emax64 s m e
  | _ => v
  end.

(** [as(af::b8)] on one f32 element.  ArrayFire's [b8] is its 8-bit
    boolean type: the cast yields 1 for every value different from zero
    (a NaN included) and 0 for both zeros. *)
Definition b8_of_float (v : f32) : Z :=
  match v with
  | S754_zero _ => 0
  | _ => 1
  end.

End Sample.

(** ** OpenCV: matrix types and headers *)

Module cv.
Import Sample.

(** Depth codes and the type encoding of [cvdef.h]. *)
Definition CV_8U : Z := 0.
Definition CV_8S : Z := 1.
Definition CV_16U : Z := 2.
Definition CV_16S : Z := 3.
Definition CV_32S : Z := 4.
Definition CV_32F : Z := 5.
Definition CV_64F : Z := 6.

Definition CV_CN_SHIFT : Z := 3.
Definition CV_MAT_TYPE (flags : Z) : Z := Z.land flags 4095.
Definition CV_MAT_DEPTH (flags : Z) : Z := Z.land flags 7.
Definition CV_MAT_CN (flags : Z) : Z :=
  Z.land (Z.shiftr flags CV_CN_SHIFT) 511 + 1.
Definition CV_MAKETYPE (depth cn : Z) : Z :=
  CV_MAT_DEPTH depth + Z.shiftl (cn - 1) CV_CN_SHIFT.

Definition CV_32FC2 : Z := CV_MAKETYPE CV_32F 2.
Definition CV_32FC3 : Z := CV_MAKETYPE CV_32F 3.

(** The contents of a pixel buffer: row-major, the channels of a pixel
    interleaved.  A buffer that was allocated and never written has no
    samples to speak of, only a size. *)
Inductive samples : Type :=
| Ints (l : list Z)
| Floats (l : list f32)
| Doubles (l : list f64)
| Uninit (n : nat).

Definition loc : Type := positive.

(** A [cv::Mat] header. *)
Record Mat : Type := mkMat {
  rows : nat;
  cols : nat;
  flags : Z;
  data : loc
}.

Arguments mkMat (rows cols)%_nat flags%_Z data%_positive.

Definition channels (m : Mat) : nat := Z.to_nat (CV_MAT_CN (flags m)).

(** Element-wise [saturate_cast<float>] over a buffer; reading a buffer
    that was never written is undefined. *)
Definition widen (b : samples) : option (list f32) :=
  match b with
  | Ints l => Some (float_of_int <$> l)
  | Floats l => Some l
  | Doubles l => Some (float_of_double <$> l)
  | Uninit _ => None
  end.

(** [ptr<float>(0)]: the buffer read through a [float*]. *)
Definition as_floats (b : samples) : option (list f32) :=
  match b with
  | Floats l => Some l
  | _ => None
  end.

(** The samples of [l] at the positions [idx], in that order. *)
Definition gather {A : Type} (l : list A) (idx : list nat) : list A :=
  omap (λ i, l !! i) idx.

(** Positions of channel [c] in an interleaved buffer of [n] pixels with
    [cn] channels: pixel [p] has its channel [c] at [p * cn + c]. *)
Definition channel_positions (cn c n : nat) : list nat :=
  (λ p, p * cn + c)%nat <$> seq 0 n.

(** [cv::split] on the sample list: one plane per channel. *)
Definition split_planes {A : Type} (cn n : nat) (l : list A) : list (list A) :=
  (λ c, gather l (channel_positions cn c n)) <$> seq 0 cn.

(** [cv::split] on a buffer: the planes keep the depth of the source. *)
Definition split_samples (cn n : nat) (b : samples) : option (list samples) :=
  match b with
  | Ints l => Some (Ints <$> split_planes cn n l)
  | Floats l => Some (Floats <$> split_planes cn n l)
  | Doubles l => Some (Doubles <$> split_planes cn n l)
  | Uninit _ => None
  end.

End cv.

(** ** ArrayFire: device arrays *)

Module af.

(** A device array with up to three dimensions; element [(i, j, k)] is at
    offset [i + dims0 * (j + dims1 * k)] of [elems] (column-major: the
    first dimension varies fastest). *)
Record array (A : Type) : Type := mkArray {
  dims0 : nat;
  dims1 : nat;
  dims2 : nat;
  elems : list A
}.
Arguments mkArray {A} _ _ _ _.
Arguments dims0 {A} _.
Arguments dims1 {A} _.
Arguments dims2 {A} _.
Arguments elems {A} _.

Definition offset {A : Type} (a : array A) (i j k : nat) : nat :=
  (i + dims0 a * (j + dims1 a * k))%nat.

Definition at_ {A : Type} (a : array A) (i j k : nat) : option A :=
  elems a !! offset a i j k.

(** [array(d0, d1, ptr)]: a [d0 x d1] array filled from [d0 * d1]
    consecutive host values; a shorter host buffer is read out of bounds. *)
Definition from_host {A : Type} (d0 d1 : nat) (p : list A) : option (array A) :=
  if decide (d0 * d1 ≤ length p)%nat
  then Some (mkArray d0 d1 1 (take (d0 * d1) p))
  else None.

(** [array(d0, d1, d2)]: fresh device memory, with whatever it holds. *)
Definition alloc {A : Type} (junk : A) (d0 d1 d2 : nat) : array A :=
  mkArray d0 d1 d2 (replicate (d0 * d1 * d2) junk).

(** Offsets, in the order of the result, that the transpose of a
    [d0 x d1] column-major matrix reads: result element [(i, j)], at
    offset [i + d1 * j], is source element [(j, i)], at [j + d0 * i]. *)
Definition transposed_positions (d0 d1 : nat) : list nat :=
  j ← seq 0 d0; (λ i, j + d0 * i)%nat <$> seq 0 d1.

(** [a.T()], for a matrix (the helpers transpose nothing else). *)
Definition T {A : Type} (a : array A) : array A :=
  mkArray (dims1 a) (dims0 a) (dims2 a)
          (cv.gather (elems a) (transposed_positions (dims0 a) (dims1 a))).

(** [a.as(type)], element by element. *)
Definition as_ {A B : Type} (cast : A → B) (a : array A) : array B :=
  mkArray (dims0 a) (dims1 a) (dims2 a) (cast <$> elems a).

(** [a.host(ptr)]: the elements in storage order. *)
Definition host {A : Type} (a : array A) : list A := elems a.

(** [out(span, span, k) = p]: plane [k] of [out] overwritten by the
    matrix [p]; ArrayFire raises an error when the shapes differ. *)
Definition assign_plane {A : Type} (k : nat) (p out : array A) : option (array A) :=
  let n := (dims0 out * dims1 out)%nat in
  if decide (dims0 p = dims0 out ∧ dims1 p = dims1 out ∧ dims2 p = 1%nat
             ∧ (k < dims2 out)%nat)
  then Some (mkArray (dims0 out) (dims1 out) (dims2 out)
               (take (k * n) (elems out) ++ elems p ++ drop ((k + 1) * n) (elems out)))
  else None.

(** Plane [k] of [a] as a matrix of its own: [a(span, span, k)]. *)
Definition plane {A : Type} (k : nat) (a : array A) : array A :=
  let n := (dims0 a * dims1 a)%nat in
  mkArray (dims0 a) (dims1 a) 1 (take n (drop (k * n) (elems a))).

End af.

(** ** The helpers of af_helpers.cpp *)

Module helpers.
Import Sample cv af.

Section Converters.

(** [MSG] is a macro of af_helpers.hpp, which is not among the sources:
    it is used as a statement taking the text to report, so it is taken
    as a parameter acting on whatever it reports to. *)
Variable World : Type.
Variable MSG : string → World → World.

(** What freshly allocated device memory holds. *)
Variable junk : f32.

(** The host store (pixel buffers by address) and the world [MSG] acts
    on.  A computation that returns nothing has undefined behaviour. *)
Definition state : Type := gmap loc samples * World.
Definition M (A : Type) : Type := state → option (A * state).

Definition ret {A : Type} (x : A) : M A := λ s, Some (x, s).
Definition bind {A B : Type} (c : M A) (k : A → M B) : M B :=
  λ s, match c s with
       | Some (x, s') => k x s'
       | None => None
       end.
Definition lift {A : Type} (o : option A) : M A :=
  λ s, match o with
       | Some x => Some (x, s)
       | None => None
       end.

Notation "x <~ c ;; k" := (bind c (λ x, k))
  (at level 100, c at next level, right associativity).

Definition load (l : loc) : M samples := λ s, lift (s.1 !! l) s.
Definition store (l : loc) (b : samples) : M unit :=
  λ s, match s.1 !! l with
       | Some _ => Some (tt, (<[l := b]> s.1, s.2))
       | None => None
       end.
Definition new (b : samples) : M loc :=
  λ s, let l := fresh (dom s.1) in Some (l, (<[l := b]> s.1, s.2)).
Definition msg (text : string) : M unit :=
  λ s, Some (tt, (s.1, MSG text s.2)).

(** [m.clone()]: a header of its own over a copy of the buffer. *)
Definition clone (m : Mat) : M Mat :=
  b <~ load (data m);;
  l <~ new b;;
  ret (mkMat (rows m) (cols m) (flags m) l).

(** [m.convertTo(m, rtype)]: the buffer of [m] is replaced by its
    samples cast to the depth of [rtype]; the channel count stays that
    of [m].  Only the target depth CV_32F, the one the helpers ask for,
    is modelled.  OpenCV gives [m] a new buffer when the depth changes;
    writing over the old one, as here, is the harsher reading for
    whoever shares that buffer. *)
Definition convertTo (m : Mat) (rtype : Z) : M Mat :=
  if decide (CV_MAT_DEPTH rtype = CV_32F) then
    b <~ load (data m);;
    fl <~ lift (widen b);;
    _ <~ store (data m) (Floats fl);;
    ret (mkMat (rows m) (cols m) (CV_MAKETYPE rtype (CV_MAT_CN (flags m))) (data m))
  else lift None.

(** [m.ptr<float>(0)] *)
Definition ptr_float (m : Mat) : M (list f32) :=
  b <~ load (data m);;
  lift (as_floats b).

(** [split(m, mv)]: the planes are temporaries of the caller and are
    kept as values. *)
Definition split (m : Mat) : M (list samples) :=
  b <~ load (data m);;
  lift (split_samples (channels m) (rows m * cols m) b).

(** [cv::Mat(rows, cols, type)]: a header over a fresh buffer that
    nothing was written to. *)
Definition create (r c : nat) (type : Z) : M Mat :=
  l <~ new (Uninit (r * c * Z.to_nat (CV_MAT_CN type)));;
  ret (mkMat r c (CV_MAT_TYPE type) l).

(** [output(span, span, k) = array(w, h, mv[c].ptr<float>(0)).T()] *)
Definition assign_channel (w h : nat) (mv : list samples) (c k : nat)
    (output : array f32) : M (array f32) :=
  p <~ lift (mv !! c ≫= as_floats);;
  a <~ lift (from_host w h p);;
  lift (assign_plane k (T a) output).

(** [inline void mat_to_array_(cv::Mat& input, array& output)]: the
    result is [input] as the call leaves it, and [output]. *)
Definition mat_to_array_ (input : Mat) : M (Mat * array f32) :=
  let w := cols input in
  let h := rows input in
  let channels := channels input in
  if decide (channels = 1%nat) then
    input <~ convertTo input CV_32F;;
    p <~ ptr_float input;;
    a <~ lift (from_host w h p);;
    ret (input, T a)
  else if decide (channels = 3%nat) then
    input <~ convertTo input CV_32FC3;;
    rgb <~ split input;;
    let output := alloc junk h w 3 in
    output <~ assign_channel w h rgb 2 0 output;;
    output <~ assign_channel w h rgb 1 1 output;;
    output <~ assign_channel w h rgb 0 2 output;;
    ret (input, output)
  else
    input <~ convertTo input CV_32FC2;;
    gb <~ split input;;
    let output := alloc junk h w 2 in
    output <~ assign_channel w h gb 1 0 output;;
    output <~ assign_channel w h gb 0 1 output;;
    ret (input, output).

(** [void mat_to_array(const cv::Mat& input, array& output)]: what
    [output] held before is overwritten. *)
Definition mat_to_array_into (input : Mat) (output : array f32) : M (array f32) :=
  tmp <~ clone input;;
  r <~ mat_to_array_ tmp;;
  ret r.2.

(** [array mat_to_array(const cv::Mat& input)] *)
Definition mat_to_array (input : Mat) : M (array f32) :=
  mtmp <~ clone input;;
  r <~ mat_to_array_ mtmp;;
  ret r.2.

(** [void array_to_mat(const array& input, cv::Mat& output, int type)]:
    the result is the header [output] as the call leaves it. *)
Definition array_to_mat (input : array f32) (output : Mat) (type : Z) : M Mat :=
  if decide (dims2 input ≠ 1%nat) then
    _ <~ msg "array_to_mat: input must be 1 channel.";;
    ret output
  else
    output <~ create (dims0 input) (dims1 input) type;;
    if decide (type = CV_32F) then
      _ <~ store (data output) (Floats (host (T input)));;
      ret output
    else if decide (type = CV_64F) then
      _ <~ store (data output) (Doubles (host (as_ double_of_float (T input))));;
      ret output
    else if decide (type = CV_8U) then
      _ <~ store (data output) (Ints (host (as_ b8_of_float (T input))));;
      ret output
    else
      _ <~ msg "array_to_mat: invalid conversion";;
      ret output.

(** Host to device and back: [array_to_mat(mat_to_array(img), out, type)]. *)
Definition round_trip (img out : Mat) (type : Z) : M Mat :=
  a <~ mat_to_array img;;
  array_to_mat a out type.

(** [cv::Mat output;]: the header of an image without pixels; [null] is
    the address such a header holds. *)
Variable null : loc.
Definition Mat_default : Mat := mkMat 0 0 CV_8U null.

(** [Mat array_to_mat(const array& input, int type)] *)
Definition array_to_mat_value (input : array f32) (type : Z) : M Mat :=
  output <~ array_to_mat input Mat_default type;;
  ret output.

End Converters.

Arguments ret {World A} _ _.
Arguments bind {World A B} _ _ _.
Arguments lift {World A} _ _.
Arguments load {World} _ _.
Arguments store {World} _ _ _.
Arguments new {World} _ _.
Arguments msg {World} _ _ _.
Arguments clone {World} _ _.
Arguments convertTo {World} _ _ _.
Arguments ptr_float {World} _ _.
Arguments split {World} _ _.
Arguments create {World} _ _ _ _.
Arguments assign_channel {World} _ _ _ _ _ _ _.
Arguments mat_to_array_ {World} _ _ _.
Arguments mat_to_array_into {World} _ _ _ _.
Arguments mat_to_array {World} _ _ _.
Arguments array_to_mat {World} _ _ _ _ _.
Arguments round_trip {World} _ _ _ _ _ _.
Arguments array_to_mat_value {World} _ _ _ _ _.

End helpers.

(** ** thrust::detail::device::cuda::free *)

Module thrust.

(** The device side as the CUDA runtime sees it: the addresses that are
    currently allocated.  Address 0 is the null pointer. *)
Definition device : Type := gset Z.

Inductive outcome (A : Type) : Type :=
| Returned (x : A)
| Thrown (error : Z).
Arguments Returned {A} _.
Arguments Thrown {A} _.

Definition cudaSuccess : Z := 0.
Definition cudaErrorInvalidDevicePointer : Z := 17.

(** [cudaFree(p)]: freeing the null pointer does nothing. *)
Definition cudaFree (p : Z) (d : device) : Z * device :=
  if decide (p = 0) then (cudaSuccess, d)
  else if decide (p ∈ d) then (cudaSuccess, d ∖ {[p]})
  else (cudaErrorInvalidDevicePointer, d).

(** [#if cond ... #endif] around a block of statements. *)
Definition pp_if {S : Type} (cond : Z) (block : S → outcome unit * S)
    : S → outcome unit * S :=
  if decide (cond = 0) then λ s, (Returned tt, s) else block.

(** [template<unsigned int> void free(thrust::device_ptr<void> ptr)] *)
Definition free (ptr : Z) : device → outcome unit * device :=
  pp_if 0 (λ d,
    let '(error, d') := cudaFree ptr d in
    if decide (error ≠ 0) then (Thrown error, d')
    else (Returned tt, d')).

End thrust.

(** ** Vocabulary of the specification *)

Module layout.
Import Sample cv af.

(** The host image [m] is stored in [σ], its buffer holds one sample per
    pixel and channel, and widened to float the samples are [fl]. *)
Definition image_in (σ : gmap loc samples) (m : Mat) (fl : list f32) : Prop :=
  ∃ b, σ !! data m = Some b ∧ widen b = Some fl
       ∧ length fl = (rows m * cols m * channels m)%nat.

(** Channel [ch] of the pixel in row [r] and column [c]: the host buffer
    is row-major with interleaved channels. *)
Definition pixel {A : Type} (m : Mat) (l : list A) (r c ch : nat) : option A :=
  l !! ((r * cols m + c) * channels m + ch)%nat.

(** Channel [ch] of the host image, row-major [rows x cols], handed to the
    device as it is: the same storage is a column-major [cols x rows]
    matrix. *)
Definition channel_matrix {A : Type} (m : Mat) (l : list A) (ch : nat) : array A :=
  mkArray (cols m) (rows m) 1
          (gather l (channel_positions (channels m) ch (rows m * cols m))).

(** The number of planes [mat_to_array_] produces for a channel count,
    and the host channel that ends up in plane [k]. *)
Definition planes (cn : nat) : nat :=
  if decide (cn = 1%nat) then 1%nat
  else if decide (cn = 3%nat) then 3%nat else 2%nat.

Definition source_channel (cn k : nat) : nat :=
  if decide (cn = 1%nat) then 0%nat
  else if decide (cn = 3%nat) then (2 - k)%nat else (1 - k)%nat.

(** The device array the conversion of [m] is expected to give: [rows]
    by [cols], and plane [k] the transposed matrix of its source channel. *)
Definition device_image {A : Type} (m : Mat) (l : list A) : array A :=
  mkArray (rows m) (cols m) (planes (channels m))
          (k ← seq 0 (planes (channels m));
           elems (T (channel_matrix m l (source_channel (channels m) k)))).

(** What [array_to_mat] writes to the host for a requested type, given
    the elements it reads in host order. *)
Definition read_back (type : Z) (fl : list f32) : option samples :=
  if decide (type = CV_32F) then Some (Floats fl)
  else if decide (type = CV_64F) then Some (Doubles (double_of_float <$> fl))
  else if decide (type = CV_8U) then Some (Ints (b8_of_float <$> fl))
  else None.

(** An [MSG] that keeps what it is given, for the examples. *)
Definition console : Type := list string.
Definition MSG_console (text : string) (w : console) : console := w ++ [text].

End layout.

(** ** Concrete images and arrays *)

Module examples.
Import Sample cv af helpers layout.

(** The buffer behind the header a call returned. *)
Definition returned_buffer {World : Type} (r : option (Mat * state World))
    : option samples :=
  match r with
  | Some (out, s) => s.1 !! data out
  | None => None
  end.

(** An [MSG] that drops what it is given, as a build without diagnostics
    has it. *)
Definition MSG_silent (text : string) (w : console) : console := w.

(** A header that owns nothing yet, as [cv::Mat output;] declares it, and
    the store the examples start from when they need none. *)
Definition no_image : Mat := mkMat 0 0 CV_8U 9.
Definition quiet : console := [].

(** 1x1, three 8-bit channels: B = 10, G = 20, R = 30. *)
Definition bgr_pixel : Mat := mkMat 1 1 (CV_MAKETYPE CV_8U 3) 1.
Definition bgr_store : gmap loc samples := {[ 1%positive := Ints [10; 20; 30] ]}.

(** 2x2, one 8-bit channel: [[1, 2], [3, 4]]. *)
Definition gray_2x2 : Mat := mkMat 2 2 CV_8U 1.
Definition gray_2x2_store : gmap loc samples := {[ 1%positive := Ints [1; 2; 3; 4] ]}.

(** 1x1, one 8-bit channel holding 2. *)
Definition gray_pixel : Mat := mkMat 1 1 CV_8U 1.
Definition gray_pixel_store : gmap loc samples := {[ 1%positive := Ints [2] ]}.

(** One row of two pixels, one 8-bit channel: [[5, 6]]. *)
Definition gray_1x2 : Mat := mkMat 1 2 CV_8U 1.
Definition gray_1x2_store : gmap loc samples := {[ 1%positive := Ints [5; 6] ]}.

(** One row of two pixels with two 8-bit channels: (1, 2) and (3, 4). *)
Definition pair_1x2 : Mat := mkMat 1 2 (CV_MAKETYPE CV_8U 2) 1.
Definition pair_1x2_store : gmap loc samples := {[ 1%positive := Ints [1; 2; 3; 4] ]}.

(** 1x1, four 8-bit channels: (10, 20, 30, 40). *)
Definition bgra_pixel : Mat := mkMat 1 1 (CV_MAKETYPE CV_8U 4) 1.
Definition bgra_store : gmap loc samples := {[ 1%positive := Ints [10; 20; 30; 40] ]}.

(** Device arrays of one element per plane, with one and with two planes. *)
Definition one_plane : array f32 := mkArray 1 1 1 [float_of_int 7].
Definition two_planes : array f32 := mkArray 1 1 2 [float_of_int 7; float_of_int 8].

(** 2x2, one float channel: [[1.5, 2], [3, 4]]. *)
Definition float_2x2 : Mat := mkMat 2 2 CV_32F 1.
Definition float_2x2_samples : list f32 :=
  [S754_finite false 12582912 (-23); float_of_int 2; float_of_int 3; float_of_int 4].
Definition float_2x2_store : gmap loc samples :=
  {[ 1%positive := Floats float_2x2_samples ]}.

(** 1x1, one double channel holding the double nearest to 0.1. *)
Definition double_pixel : Mat := mkMat 1 1 CV_64F 1.
Definition double_tenth : f64 := S754_finite false 7205759403792794 (-56).
Definition double_pixel_store : gmap loc samples :=
  {[ 1%positive := Doubles [double_tenth] ]}.

(** A 2x2 device matrix whose storage reads 1, 3, 2, 4. *)
Definition dev_2x2 : array f32 := mkArray 2 2 1 (float_of_int <$> [1; 3; 2; 4]).

End examples.

(** * Properties *)

Import Sample cv af helpers layout examples.
Close Scope Z_scope.

(** ** Gathering by position *)

Section Gather.
Context {A : Type}.
Implicit Types (l : list A) (idx : list nat).

Lemma gather_nil l : gather l [] = [].
Proof. reflexivity. Qed.

Lemma gather_cons l i idx x :
  l !! i = Some x → gather l (i :: idx) = x :: gather l idx.
Proof. intros H. unfold gather. simpl. by rewrite H. Qed.

Lemma gather_length l idx :
  Forall (λ i, i < length l) idx → length (gather l idx) = length idx.
Proof.
  induction 1 as [|i idx Hi _ IH]; [done|].
  destruct (lookup_lt_is_Some_2 l i Hi) as [x Hx].
  rewrite (gather_cons _ _ _ _ Hx). simpl. by rewrite IH.
Qed.

Lemma gather_lookup l idx q :
  Forall (λ i, i < length l) idx →
  gather l idx !! q = idx !! q ≫= (l !!.).
Proof.
  intros H. revert q. induction H as [|i idx Hi _ IH]; intros q; [done|].
  destruct (lookup_lt_is_Some_2 l i Hi) as [x Hx].
  rewrite (gather_cons _ _ _ _ Hx).
  destruct q as [|q]; simpl; [by rewrite Hx | apply IH].
Qed.

Lemma gather_seq l : gather l (seq 0 (length l)) = l.
Proof.
  apply list_eq. intros q. rewrite gather_lookup.
  - destruct (decide (q < length l)) as [Hq|Hq].
    + by rewrite lookup_seq_lt.
    + rewrite lookup_seq_ge by lia. simpl.
      symmetry. apply lookup_ge_None_2. lia.
  - apply Forall_forall. intros i Hi. apply elem_of_seq in Hi. lia.
Qed.

End Gather.

(** ** Position lists *)

Lemma channel_positions_length cn c n : length (channel_positions cn c n) = n.
Proof. unfold channel_positions. by rewrite length_fmap, length_seq. Qed.

Lemma channel_positions_lookup cn c n p :
  p < n → channel_positions cn c n !! p = Some (p * cn + c).
Proof.
  intros Hp. unfold channel_positions.
  by rewrite list_lookup_fmap, lookup_seq_lt.
Qed.

Lemma channel_positions_bound cn c n len :
  c < cn → n * cn ≤ len →
  Forall (λ i, i < len) (channel_positions cn c n).
Proof.
  intros Hc Hlen. apply Forall_forall. intros i Hi.
  unfold channel_positions in Hi. apply list_elem_of_fmap in Hi as (p & -> & Hp).
  apply elem_of_seq in Hp. nia.
Qed.

Lemma channel_positions_single n : channel_positions 1 0 n = seq 0 n.
Proof.
  unfold channel_positions. rewrite <- (list_fmap_id (seq 0 n)) at 2.
  apply list_fmap_ext. intros _ p _. simpl. lia.
Qed.

Lemma rows_bind_length {B : Type} (f : nat → list B) d1 s d0 :
  (∀ j, length (f j) = d1) → length (seq s d0 ≫= f) = d0 * d1.
Proof.
  intros Hf. revert s. induction d0 as [|d0 IH]; intros s; [done|].
  change (seq s (S d0)) with (s :: seq (S s) d0).
  rewrite bind_cons, length_app, Hf, IH. lia.
Qed.

Lemma rows_bind_lookup {B : Type} (f : nat → list B) d1 s d0 j i :
  (∀ j, length (f j) = d1) → j < d0 → i < d1 →
  (seq s d0 ≫= f) !! (j * d1 + i) = f (s + j) !! i.
Proof.
  intros Hf. revert s j. induction d0 as [|d0 IH]; intros s j Hj Hi; [lia|].
  change (seq s (S d0)) with (s :: seq (S s) d0).
  rewrite bind_cons. destruct j as [|j].
  - rewrite lookup_app_l by (rewrite Hf; lia). simpl. by rewrite Nat.add_0_r.
  - rewrite lookup_app_r by (rewrite Hf; lia). rewrite Hf.
    replace (S j * d1 + i - d1) with (j * d1 + i) by lia.
    rewrite IH by lia. f_equal. f_equal. lia.
Qed.

Lemma transposed_positions_length d0 d1 :
  length (transposed_positions d0 d1) = d0 * d1.
Proof.
  unfold transposed_positions. apply rows_bind_length.
  intros j. by rewrite length_fmap, length_seq.
Qed.

Lemma transposed_positions_lookup d0 d1 j i :
  j < d0 → i < d1 →
  transposed_positions d0 d1 !! (j * d1 + i) = Some (j + d0 * i).
Proof.
  intros Hj Hi. unfold transposed_positions.
  rewrite (rows_bind_lookup _ d1) by
    (try (intros ?; rewrite length_fmap, length_seq); done).
  by rewrite list_lookup_fmap, lookup_seq_lt.
Qed.

Lemma transposed_positions_bound d0 d1 :
  Forall (λ i, i < d0 * d1) (transposed_positions d0 d1).
Proof.
  apply Forall_forall. intros q Hq. unfold transposed_positions in Hq.
  apply list_elem_of_bind in Hq as (j & Hq & Hj).
  apply list_elem_of_fmap in Hq as (i & -> & Hi).
  apply elem_of_seq in Hj, Hi. nia.
Qed.

(** ** Device arrays: transposition and planes *)

Section Arrays.
Context {A : Type}.
Implicit Types (a p out : array A).

Lemma T_dims a :
  dims0 (T a) = dims1 a ∧ dims1 (T a) = dims0 a ∧ dims2 (T a) = dims2 a.
Proof. done. Qed.

Lemma T_length a :
  length (elems a) = dims0 a * dims1 a →
  length (elems (T a)) = dims0 a * dims1 a.
Proof.
  intros Hlen. unfold T. simpl. rewrite gather_length.
  - apply transposed_positions_length.
  - rewrite Hlen. apply transposed_positions_bound.
Qed.

(** Element [(i, j)] of the transpose is element [(j, i)] of the source. *)
Lemma T_lookup a i j :
  length (elems a) = dims0 a * dims1 a →
  i < dims1 a → j < dims0 a →
  elems (T a) !! (i + dims1 a * j) = elems a !! (j + dims0 a * i).
Proof.
  intros Hlen Hi Hj. unfold T. simpl.
  rewrite gather_lookup by (rewrite Hlen; apply transposed_positions_bound).
  replace (i + dims1 a * j) with (j * dims1 a + i) by lia.
  by rewrite transposed_positions_lookup.
Qed.

Lemma T_involutive a :
  length (elems a) = dims0 a * dims1 a → T (T a) = a.
Proof.
  intros Hlen. destruct a as [d0 d1 d2 e]. simpl in Hlen.
  unfold T at 1. simpl. f_equal.
  pose proof (T_length (mkArray d0 d1 d2 e) Hlen) as HlenT. simpl in HlenT.
  apply list_eq. intros q.
  destruct (decide (q < d0 * d1)) as [Hq|Hq].
  - assert (d0 ≠ 0) as Hd0 by nia.
    pose proof (Nat.div_mod_eq q d0) as Hdiv.
    pose proof (Nat.mod_upper_bound q d0 Hd0) as Hmod.
    assert (q `div` d0 < d1) as Hquot by (apply Nat.Div0.div_lt_upper_bound; lia).
    rewrite Hdiv at 1.
    replace (d0 * q `div` d0 + q `mod` d0) with (q `mod` d0 + d0 * (q `div` d0)) by lia.
    rewrite (T_lookup (T (mkArray d0 d1 d2 e))); simpl; [|lia..].
    rewrite (T_lookup (mkArray d0 d1 d2 e)); simpl; [|lia..].
    f_equal. lia.
  - rewrite !lookup_ge_None_2; [done|lia|].
    rewrite gather_length.
    + rewrite transposed_positions_length. lia.
    + rewrite HlenT. replace (d0 * d1) with (d1 * d0) by lia.
      apply transposed_positions_bound.
Qed.

Lemma from_host_exact d0 d1 (l : list A) :
  length l = d0 * d1 → from_host d0 d1 l = Some (mkArray d0 d1 1 l).
Proof.
  intros Hlen. unfold from_host. rewrite decide_True by lia.
  by rewrite take_ge by lia.
Qed.

(** Assigning plane [k] replaces exactly the [k]-th block of the storage. *)
Lemma assign_plane_blocks k p d0 d1 d2 (pre old post : list A) :
  dims0 p = d0 → dims1 p = d1 → dims2 p = 1 → k < d2 →
  length pre = k * (d0 * d1) → length old = d0 * d1 →
  assign_plane k p (mkArray d0 d1 d2 (pre ++ old ++ post))
  = Some (mkArray d0 d1 d2 (pre ++ elems p ++ post)).
Proof.
  intros H0 H1 H2 Hk Hpre Hold. unfold assign_plane. simpl.
  rewrite decide_True by done. do 2 f_equal.
  rewrite take_app_length' by done. f_equal. f_equal.
  rewrite drop_app_ge by lia.
  replace ((k + 1) * (d0 * d1) - length pre) with (length old) by lia.
  by rewrite drop_app_length.
Qed.

Lemma plane_blocks k d0 d1 d2 (pre blk post : list A) :
  length pre = k * (d0 * d1) → length blk = d0 * d1 →
  plane k (mkArray d0 d1 d2 (pre ++ blk ++ post)) = mkArray d0 d1 1 blk.
Proof.
  intros Hpre Hblk. unfold plane. simpl. f_equal.
  rewrite drop_app_length' by done. by rewrite take_app_length'.
Qed.

(** Element [(i, j)] of plane [k] is element [(i, j, k)] of the array. *)
Lemma plane_at a i j k :
  i < dims0 a → j < dims1 a → at_ (plane k a) i j 0 = at_ a i j k.
Proof.
  intros Hi Hj. unfold at_, offset, plane. simpl.
  rewrite lookup_take_lt by nia. rewrite lookup_drop. f_equal. lia.
Qed.

End Arrays.

(** ** Host channels as device matrices *)

Section Channels.
Context {A : Type}.
Implicit Types (m : Mat) (l : list A).

Lemma channel_matrix_length m l ch :
  length l = rows m * cols m * channels m → ch < channels m →
  length (elems (channel_matrix m l ch)) = cols m * rows m.
Proof.
  intros Hlen Hch. unfold channel_matrix. simpl. rewrite gather_length.
  - rewrite channel_positions_length. lia.
  - apply channel_positions_bound; [done|lia].
Qed.

Lemma channel_matrix_lookup m l ch p :
  length l = rows m * cols m * channels m → ch < channels m →
  p < rows m * cols m →
  elems (channel_matrix m l ch) !! p = l !! (p * channels m + ch).
Proof.
  intros Hlen Hch Hp. unfold channel_matrix. simpl.
  rewrite gather_lookup by (apply channel_positions_bound; [done|lia]).
  by rewrite channel_positions_lookup.
Qed.

(** The transposed channel matrix has rows and columns as the host image
    has them: its element [(r, c)] is the sample of pixel [(r, c)]. *)
Lemma T_channel_matrix_at m l ch r c :
  length l = rows m * cols m * channels m → ch < channels m →
  r < rows m → c < cols m →
  at_ (T (channel_matrix m l ch)) r c 0 = pixel m l r c ch.
Proof.
  intros Hlen Hch Hr Hc. unfold at_, offset, pixel.
  pose proof (channel_matrix_length m l ch Hlen Hch) as HlenM.
  change (dims0 (T (channel_matrix m l ch))) with (rows m).
  change (dims1 (T (channel_matrix m l ch))) with (cols m).
  replace (r + rows m * (c + cols m * 0)) with (r + rows m * c) by lia.
  rewrite (T_lookup (channel_matrix m l ch)); [|done..].
  change (dims0 (channel_matrix m l ch)) with (cols m).
  rewrite channel_matrix_lookup by (done || nia).
  f_equal. lia.
Qed.

Lemma T_channel_matrix_length m l ch :
  length l = rows m * cols m * channels m → ch < channels m →
  length (elems (T (channel_matrix m l ch))) = rows m * cols m.
Proof.
  intros Hlen Hch. rewrite T_length.
  - simpl. lia.
  - by apply channel_matrix_length.
Qed.

Lemma channel_matrix_single m l :
  channels m = 1 → length l = rows m * cols m * channels m →
  channel_matrix m l 0 = mkArray (cols m) (rows m) 1 l.
Proof.
  intros Hcn Hlen. unfold channel_matrix. rewrite Hcn in *. f_equal.
  rewrite channel_positions_single.
  replace (rows m * cols m) with (length l) by lia. apply gather_seq.
Qed.

End Channels.

(** ** The type encoding *)

Lemma CV_MAT_CN_range f : (1 ≤ CV_MAT_CN f ≤ 512)%Z.
Proof.
  unfold CV_MAT_CN. change 511%Z with (Z.ones 9).
  rewrite Z.land_ones by lia.
  pose proof (Z.mod_pos_bound (f ≫ CV_CN_SHIFT) (2 ^ 9)). lia.
Qed.

Lemma CV_MAT_CN_MAKETYPE depth cn :
  (1 ≤ cn ≤ 512)%Z → CV_MAT_CN (CV_MAKETYPE depth cn) = cn.
Proof.
  intros Hcn. unfold CV_MAT_CN, CV_MAKETYPE, CV_MAT_DEPTH, CV_CN_SHIFT.
  change 7%Z with (Z.ones 3). change 511%Z with (Z.ones 9).
  rewrite !Z.land_ones by lia.
  rewrite Z.shiftl_mul_pow2, Z.shiftr_div_pow2 by lia.
  pose proof (Z.mod_pos_bound depth (2 ^ 3)) as Hd.
  rewrite Z.div_add by lia. rewrite Z.div_small by lia.
  rewrite Z.mod_small by lia. lia.
Qed.

Lemma channels_pos m : 1 ≤ channels m.
Proof. unfold channels. pose proof (CV_MAT_CN_range (flags m)). lia. Qed.

Lemma channels_convertTo r c f d rtype :
  channels (mkMat r c (CV_MAKETYPE rtype (CV_MAT_CN f)) d) = channels (mkMat r c f d).
Proof.
  unfold channels. simpl. by rewrite CV_MAT_CN_MAKETYPE by apply CV_MAT_CN_range.
Qed.

(** ** Steps on the host store *)

Section Steps.
Context {World : Type}.
Implicit Types (σ : gmap loc samples) (w : World) (m : Mat).
Implicit Types (s : state World).

Lemma bind_Some {A B : Type} (c : M World A) (k : A → M World B) s x s' :
  c s = Some (x, s') → bind c k s = k x s'.
Proof. intros H. unfold bind. by rewrite H. Qed.

Lemma clone_Some m σ w b :
  σ !! data m = Some b →
  clone m (σ, w)
  = Some (mkMat (rows m) (cols m) (flags m) (fresh (dom σ)),
          (<[fresh (dom σ) := b]> σ, w)).
Proof.
  intros Hb. unfold clone, bind, load, lift, new, ret. simpl. by rewrite Hb.
Qed.

Lemma clone_inv m s m' s' :
  clone m s = Some (m', s') →
  ∃ b, s.1 !! data m = Some b ∧ s.1 !! data m' = None
       ∧ s' = (<[data m' := b]> s.1, s.2)
       ∧ rows m' = rows m ∧ cols m' = cols m ∧ flags m' = flags m.
Proof.
  destruct s as [σ w]. unfold clone, bind, load, lift, new, ret. simpl.
  destruct (σ !! data m) as [b|] eqn:Hb; [|done].
  intros [= <- <-]. exists b. simpl. split_and!; try done.
  apply not_elem_of_dom, is_fresh.
Qed.

Lemma convertTo_Some m rtype σ w b fl :
  CV_MAT_DEPTH rtype = CV_32F →
  σ !! data m = Some b → widen b = Some fl →
  convertTo m rtype (σ, w)
  = Some (mkMat (rows m) (cols m) (CV_MAKETYPE rtype (CV_MAT_CN (flags m))) (data m),
          (<[data m := Floats fl]> σ, w)).
Proof.
  intros Hd Hb Hfl. unfold convertTo. rewrite decide_True by done.
  unfold bind, load, lift, store, ret. simpl. rewrite Hb, Hfl. simpl.
  by rewrite Hb.
Qed.

(** Whatever [convertTo] does, it does to the buffer of its argument. *)
Lemma convertTo_inv m rtype s m' s' :
  convertTo m rtype s = Some (m', s') →
  ∃ fl, is_Some (s.1 !! data m)
        ∧ s' = (<[data m := Floats fl]> s.1, s.2) ∧ data m' = data m.
Proof.
  destruct s as [σ w]. unfold convertTo. case_decide; [|done].
  unfold bind, load, lift, store, ret. simpl.
  destruct (σ !! data m) as [b|] eqn:Hb; [|done].
  destruct (widen b) as [fl|]; [|done]. simpl. rewrite Hb.
  intros [= <- <-]. exists fl. eauto.
Qed.

Lemma ptr_float_Some m σ w fl :
  σ !! data m = Some (Floats fl) → ptr_float m (σ, w) = Some (fl, (σ, w)).
Proof. intros Hb. unfold ptr_float, bind, load, lift. simpl. by rewrite Hb. Qed.

Lemma split_Some m σ w fl :
  σ !! data m = Some (Floats fl) →
  split m (σ, w)
  = Some (Floats <$> split_planes (channels m) (rows m * cols m) fl, (σ, w)).
Proof. intros Hb. unfold split, bind, load, lift. simpl. by rewrite Hb. Qed.

Lemma split_planes_lookup {A : Type} cn n (l : list A) c :
  c < cn → split_planes cn n l !! c = Some (gather l (channel_positions cn c n)).
Proof.
  intros Hc. unfold split_planes. by rewrite list_lookup_fmap, lookup_seq_lt.
Qed.

(** The steps that read without writing leave the state as it is. *)
Lemma ptr_float_inv m s x s' : ptr_float m s = Some (x, s') → s' = s.
Proof.
  unfold ptr_float, bind, load, lift.
  destruct (s.1 !! data m) as [b|]; [|done].
  destruct (as_floats b); [|done]. by intros [= _ <-].
Qed.

Lemma split_inv m s x s' : split m s = Some (x, s') → s' = s.
Proof.
  unfold split, bind, load, lift.
  destruct (s.1 !! data m) as [b|]; [|done].
  destruct (split_samples _ _ b); [|done]. by intros [= _ <-].
Qed.

Lemma lift_inv {A : Type} (o : option A) s x s' :
  lift o s = Some (x, s') → s' = s.
Proof. unfold lift. destruct o; [|done]. by intros [= _ <-]. Qed.

Lemma assign_channel_inv (w h : nat) mv c k out s x s' :
  assign_channel w h mv c k out s = Some (x, s') → s' = s.
Proof.
  unfold assign_channel, bind, lift.
  destruct (mv !! c ≫= as_floats); [|done].
  destruct (from_host w h _); [|done].
  destruct (assign_plane k _ out); [|done]. by intros [= _ <-].
Qed.

End Steps.

(** ** What [mat_to_array_] computes *)

Section HostToDevice.
Context {World : Type}.
Variable junk : f32.
Implicit Types (σ : gmap loc samples) (w : World) (m : Mat) (fl : list f32).
Implicit Types (s : state World).

Lemma bind_inv {A B : Type} (c : M World A) (k : A → M World B) s y s'' :
  bind c k s = Some (y, s'') →
  ∃ x s', c s = Some (x, s') ∧ k x s' = Some (y, s'').
Proof.
  unfold bind. destruct (c s) as [[x s']|]; [|done]. intros H. eauto.
Qed.

(** One plane assignment, for a channel the split produced. *)
Lemma assign_channel_Some m fl ch k d2 (pre old post : list f32) s :
  length fl = rows m * cols m * channels m → ch < channels m → k < d2 →
  length pre = k * (rows m * cols m) → length old = rows m * cols m →
  assign_channel (cols m) (rows m)
    (Floats <$> split_planes (channels m) (rows m * cols m) fl) ch k
    (mkArray (rows m) (cols m) d2 (pre ++ old ++ post)) s
  = Some (mkArray (rows m) (cols m) d2
            (pre ++ elems (T (channel_matrix m fl ch)) ++ post), s).
Proof.
  intros Hlen Hch Hk Hpre Hold. unfold assign_channel.
  rewrite list_lookup_fmap, split_planes_lookup by done. simpl.
  pose proof (channel_matrix_length m fl ch Hlen Hch) as HlenM.
  unfold channel_matrix in HlenM. simpl in HlenM.
  unfold bind, lift. rewrite from_host_exact by done.
  fold (channel_matrix m fl ch).
  by rewrite (assign_plane_blocks k (T (channel_matrix m fl ch))).
Qed.

Lemma mat_to_array__Some m σ w fl :
  image_in σ m fl →
  ∃ m', mat_to_array_ junk m (σ, w)
        = Some ((m', device_image m fl), (<[data m := Floats fl]> σ, w))
        ∧ data m' = data m.
Proof.
  intros (b & Hb & Hfl & Hlen).
  pose proof (channels_pos m) as Hpos.
  set (σ1 := <[data m := Floats fl]> σ).
  assert (σ1 !! data m = Some (Floats fl)) as Hb1 by apply lookup_insert_eq.
  unfold mat_to_array_, device_image, planes, source_channel.
  destruct (decide (channels m = 1)) as [Hcn|Hcn1].
  - (* bw *)
    exists (mkMat (rows m) (cols m) (CV_MAKETYPE CV_32F (CV_MAT_CN (flags m))) (data m)).
    erewrite bind_Some by (by eapply convertTo_Some).
    erewrite bind_Some by (by apply ptr_float_Some).
    unfold bind, lift, ret. rewrite from_host_exact by lia.
    split; [|done]. do 3 f_equal.
    rewrite channel_matrix_single by done. simpl. by rewrite app_nil_r.
  - destruct (decide (channels m = 3)) as [Hcn|Hcn3].
    + (* color *)
      exists (mkMat (rows m) (cols m) (CV_MAKETYPE CV_32FC3 (CV_MAT_CN (flags m))) (data m)).
      erewrite bind_Some by (by eapply convertTo_Some).
      erewrite bind_Some by (by apply split_Some).
      rewrite channels_convertTo. simpl rows. simpl cols.
      change (channels (mkMat (rows m) (cols m) (flags m) (data m)))
        with (channels m).
      unfold alloc.
      replace (replicate (rows m * cols m * 3) junk)
        with ([] ++ replicate (rows m * cols m) junk
                 ++ replicate (rows m * cols m) junk
                 ++ replicate (rows m * cols m) junk)
        by (simpl; rewrite <- !replicate_add; f_equal; lia).
      erewrite bind_Some by
        (apply (assign_channel_Some m fl 2 0); rewrite ?length_replicate; (done || lia)).
      rewrite app_nil_l.
      erewrite bind_Some by
        (apply (assign_channel_Some m fl 1 1);
         rewrite ?T_channel_matrix_length, ?length_replicate; (done || lia)).
      rewrite <- (app_nil_r (replicate (rows m * cols m) junk)).
      rewrite (app_assoc (elems (T (channel_matrix m fl 2)))).
      erewrite bind_Some by
        (apply (assign_channel_Some m fl 0 2);
         rewrite ?length_app, ?T_channel_matrix_length, ?length_replicate; (done || lia)).
      unfold ret. split; [|done]. do 3 f_equal. simpl.
      by rewrite <- app_assoc.
    + (* 2 ch *)
      exists (mkMat (rows m) (cols m) (CV_MAKETYPE CV_32FC2 (CV_MAT_CN (flags m))) (data m)).
      erewrite bind_Some by (by eapply convertTo_Some).
      erewrite bind_Some by (by apply split_Some).
      rewrite channels_convertTo. simpl rows. simpl cols.
      change (channels (mkMat (rows m) (cols m) (flags m) (data m)))
        with (channels m).
      unfold alloc.
      replace (replicate (rows m * cols m * 2) junk)
        with ([] ++ replicate (rows m * cols m) junk
                 ++ replicate (rows m * cols m) junk)
        by (simpl; rewrite <- !replicate_add; f_equal; lia).
      erewrite bind_Some by
        (apply (assign_channel_Some m fl 1 0); rewrite ?length_replicate; (done || lia)).
      rewrite app_nil_l.
      rewrite <- (app_nil_r (replicate (rows m * cols m) junk)).
      erewrite bind_Some by
        (apply (assign_channel_Some m fl 0 1);
         rewrite ?T_channel_matrix_length, ?length_replicate; (done || lia)).
      unfold ret. split; [|done]. do 3 f_equal.
Qed.

End HostToDevice.

(** ** The expected device image *)

Section DeviceImage.
Context {A : Type}.
Implicit Types (m : Mat) (l : list A).

Lemma source_channel_bound cn k : 1 ≤ cn → source_channel cn k < cn.
Proof. intros Hcn. unfold source_channel. repeat case_decide; lia. Qed.

Lemma device_image_dims m l :
  dims0 (device_image m l) = rows m ∧ dims1 (device_image m l) = cols m
  ∧ dims2 (device_image m l) = planes (channels m).
Proof. done. Qed.

Lemma device_image_plane m l k :
  length l = rows m * cols m * channels m → k < planes (channels m) →
  plane k (device_image m l)
  = T (channel_matrix m l (source_channel (channels m) k)).
Proof.
  intros Hlen Hk. pose proof (channels_pos m) as Hpos.
  set (f := λ k, elems (T (channel_matrix m l (source_channel (channels m) k)))).
  assert (∀ j, length (f j) = rows m * cols m) as Hf.
  { intros j. apply T_channel_matrix_length; [done|].
    by apply source_channel_bound. }
  unfold plane, device_image. cbn [dims0 dims1 elems].
  fold f. change (T (channel_matrix m l (source_channel (channels m) k)))
    with (mkArray (rows m) (cols m) 1 (f k)).
  f_equal. apply list_eq. intros i.
  destruct (decide (i < rows m * cols m)) as [Hi|Hi].
  - rewrite lookup_take_lt, lookup_drop by done.
    rewrite (rows_bind_lookup f (rows m * cols m)) by done. done.
  - rewrite lookup_take_ge by lia. symmetry.
    apply lookup_ge_None_2. rewrite Hf. lia.
Qed.

Lemma device_image_length m l :
  length l = rows m * cols m * channels m →
  length (elems (device_image m l)) = rows m * cols m * planes (channels m).
Proof.
  intros Hlen. pose proof (channels_pos m) as Hpos. unfold device_image. simpl.
  rewrite (rows_bind_length _ (rows m * cols m)); [lia|].
  intros j. apply T_channel_matrix_length; [done|].
  by apply source_channel_bound.
Qed.

(** Element [(r, c, k)] of the device image is the sample of pixel
    [(r, c)] in the source channel of plane [k]. *)
Lemma device_image_at m l r c k :
  length l = rows m * cols m * channels m →
  r < rows m → c < cols m → k < planes (channels m) →
  at_ (device_image m l) r c k
  = pixel m l r c (source_channel (channels m) k).
Proof.
  intros Hlen Hr Hc Hk. pose proof (channels_pos m) as Hpos.
  rewrite <- plane_at by done.
  rewrite device_image_plane by done.
  apply T_channel_matrix_at; try done. by apply source_channel_bound.
Qed.

(** A single-channel image goes to the device as one transposed matrix. *)
Lemma device_image_single m l :
  channels m = 1 → length l = rows m * cols m * channels m →
  device_image m l = T (mkArray (cols m) (rows m) 1 l).
Proof.
  intros Hcn Hlen. unfold device_image, planes. rewrite decide_True by done.
  change (seq 0 1) with [0]. rewrite bind_cons.
  change ([] ≫= _) with (@nil A). rewrite app_nil_r.
  unfold source_channel. rewrite decide_True by done.
  by rewrite channel_matrix_single.
Qed.

End DeviceImage.

(** ** The public converters *)

Section PublicConverters.
Context {World : Type}.
Variable junk : f32.
Implicit Types (σ : gmap loc samples) (w : World) (m : Mat) (fl : list f32).
Implicit Types (s : state World).

Ltac step H :=
  let x := fresh "x" in
  let s := fresh "s" in
  let Hx := fresh "Hstep" in
  apply bind_inv in H as (x & s & Hx & H).

Lemma ret_inv {A : Type} (x y : A) s s' :
  ret (World := World) x s = Some (y, s') → y = x ∧ s' = s.
Proof. unfold ret. by intros [= <- <-]. Qed.

(** The only buffer [mat_to_array_] writes is the one of its argument. *)
Lemma mat_to_array__inv m s r s' :
  mat_to_array_ junk m s = Some (r, s') →
  ∃ fl, is_Some (s.1 !! data m) ∧ s' = (<[data m := Floats fl]> s.1, s.2).
Proof.
  unfold mat_to_array_. intros H. repeat case_decide.
  - step H. apply convertTo_inv in Hstep as (fl & Hsome & -> & _).
    step H. apply ptr_float_inv in Hstep as ->.
    step H. apply lift_inv in Hstep as ->.
    apply ret_inv in H as [_ ->]. eauto.
  - step H. apply convertTo_inv in Hstep as (fl & Hsome & -> & _).
    step H. apply split_inv in Hstep as ->.
    do 3 (step H; apply assign_channel_inv in Hstep as ->).
    apply ret_inv in H as [_ ->]. eauto.
  - step H. apply convertTo_inv in Hstep as (fl & Hsome & -> & _).
    step H. apply split_inv in Hstep as ->.
    do 2 (step H; apply assign_channel_inv in Hstep as ->).
    apply ret_inv in H as [_ ->]. eauto.
Qed.

Lemma mat_to_array_frame m s out s' :
  mat_to_array junk m s = Some (out, s') → s.1 ⊆ s'.1 ∧ s'.2 = s.2.
Proof.
  unfold mat_to_array. intros H.
  step H. apply clone_inv in Hstep as (b & Hb & Hfresh & -> & _).
  step H. apply mat_to_array__inv in Hstep as (fl & _ & ->).
  apply ret_inv in H as [_ ->]. simpl. split; [|done].
  rewrite insert_insert_eq. by apply insert_subseteq.
Qed.

Lemma mat_to_array_into_eq m output s :
  mat_to_array_into junk m output s = mat_to_array junk m s.
Proof. done. Qed.

Lemma mat_to_array_Some m σ w fl :
  image_in σ m fl →
  ∃ σ', mat_to_array junk m (σ, w) = Some (device_image m fl, (σ', w))
        ∧ σ ⊆ σ'.
Proof.
  intros (b & Hb & Hfl & Hlen). unfold mat_to_array.
  erewrite bind_Some by (by apply clone_Some).
  set (l := fresh (dom σ)).
  set (tmp := mkMat (rows m) (cols m) (flags m) l).
  assert (image_in (<[l := b]> σ) tmp fl) as Htmp.
  { exists b. split_and!; [apply lookup_insert_eq|done..]. }
  destruct (mat_to_array__Some junk tmp _ w fl Htmp) as (m' & Heq & _).
  erewrite bind_Some by exact Heq.
  eexists. split; [reflexivity|]. simpl.
  rewrite insert_insert_eq. apply insert_subseteq.
  apply not_elem_of_dom, is_fresh.
Qed.

End PublicConverters.

(** ** What [array_to_mat] computes *)

Section DeviceToHost.
Context {World : Type}.
Variable MSG : string → World → World.
Implicit Types (σ : gmap loc samples) (w : World) (m output : Mat).
Implicit Types (input : array f32) (s : state World).

Lemma array_to_mat_planes input output type s :
  dims2 input ≠ 1 →
  array_to_mat MSG input output type s
  = Some (output, (s.1, MSG "array_to_mat: input must be 1 channel." s.2)).
Proof. intros Hd. unfold array_to_mat. by rewrite decide_True. Qed.

Lemma array_to_mat_Some input output type σ w b :
  dims2 input = 1 → read_back type (elems (T input)) = Some b →
  array_to_mat MSG input output type (σ, w)
  = Some (mkMat (dims0 input) (dims1 input) (CV_MAT_TYPE type) (fresh (dom σ)),
          (<[fresh (dom σ) := b]> σ, w)).
Proof.
  intros Hd Hb. unfold array_to_mat. rewrite decide_False by (intros ?; done).
  unfold read_back in Hb. unfold create, bind, new, store, ret, host. simpl.
  repeat case_decide; try done; injection Hb as <-; cbn [fst snd];
    by rewrite lookup_insert_eq, insert_insert_eq.
Qed.

Lemma array_to_mat_invalid input output type σ w :
  dims2 input = 1 → read_back type (elems (T input)) = None →
  array_to_mat MSG input output type (σ, w)
  = Some (mkMat (dims0 input) (dims1 input) (CV_MAT_TYPE type) (fresh (dom σ)),
          (<[fresh (dom σ) :=
               Uninit (dims0 input * dims1 input * Z.to_nat (CV_MAT_CN type))]> σ,
           MSG "array_to_mat: invalid conversion" w)).
Proof.
  intros Hd Hb. unfold array_to_mat. rewrite decide_False by (intros ?; done).
  unfold read_back in Hb. unfold create, bind, new, msg, ret. simpl.
  by repeat case_decide.
Qed.

(** Host to device and back, for a single-channel image and a type
    [array_to_mat] supports: the result has the shape of the image, and
    its buffer holds the widened samples cast to the requested type. *)
Lemma round_trip_Some junk img out type σ w fl b :
  image_in σ img fl → channels img = 1 → read_back type fl = Some b →
  ∃ out' σ',
    round_trip MSG junk img out type (σ, w) = Some (out', (σ', w))
    ∧ rows out' = rows img ∧ cols out' = cols img
    ∧ σ' !! data out' = Some b
    ∧ σ ⊆ σ'.
Proof.
  intros Himg Hcn Hb.
  destruct (mat_to_array_Some junk img σ w fl Himg) as (σ1 & Heq & Hsub).
  destruct Himg as (b0 & Hb0 & Hfl & Hlen).
  assert (T (device_image img fl) = mkArray (cols img) (rows img) 1 fl) as HT.
  { rewrite device_image_single by done. apply T_involutive. simpl. lia. }
  unfold round_trip. erewrite bind_Some by exact Heq.
  erewrite array_to_mat_Some.
  - eexists _, _. split; [reflexivity|]. simpl. split_and!; try done.
    + apply lookup_insert_eq.
    + etrans; [exact Hsub|]. apply insert_subseteq.
      apply not_elem_of_dom, is_fresh.
  - unfold device_image, planes. by rewrite decide_True.
  - by rewrite HT.
Qed.

End DeviceToHost.

(** * The claims *)

(** ** Device to host: rejected inputs *)

(** C4, as stated, fails: given a buffer of two planes, [array_to_mat]
    does not fail, it returns as any call does; what tells the caller is
    what [MSG] does with the text, and with an [MSG] that drops it the call
    leaves no trace at all. *)
Lemma array_to_mat_multi_plane_returns_normally :
  array_to_mat MSG_console two_planes no_image CV_32F (∅, quiet)
  = Some (no_image, (∅, ["array_to_mat: input must be 1 channel."]))
  ∧ array_to_mat MSG_silent two_planes no_image CV_32F (∅, quiet)
    = Some (no_image, (∅, quiet)).
Proof. split; by vm_compute. Qed.

(** C4, amended: for every device buffer with more than one plane,
    [array_to_mat] reports "input must be 1 channel" through [MSG] and
    returns normally, with no failure value and no exception; it writes
    nothing: the output header comes back as it was passed and the host
    store is unchanged. *)
Theorem array_to_mat_multi_plane_reported {World : Type}
    (MSG : string → World → World) (input : array f32) (output : Mat)
    (type : Z) (s : state World) :
  1 < dims2 input →
  array_to_mat MSG input output type s
  = Some (output, (s.1, MSG "array_to_mat: input must be 1 channel." s.2)).
Proof. intros Hd. apply array_to_mat_planes. lia. Qed.

Lemma array_to_mat_multi_plane_reported_two_planes :
  1 < dims2 two_planes
  ∧ array_to_mat MSG_console two_planes gray_2x2 CV_8U (gray_2x2_store, quiet)
    = Some (gray_2x2,
            (gray_2x2_store, ["array_to_mat: input must be 1 channel."])).
Proof.
  split; [simpl; lia|].
  apply (array_to_mat_multi_plane_reported
           MSG_console two_planes gray_2x2 CV_8U (gray_2x2_store, quiet)).
  simpl. lia.
Defined.

(** C5, as stated, fails: asked for CV_16U, [array_to_mat] returns
    normally, and the header it leaves is not the one it was given but a
    1x1 image over a buffer nothing was written to. *)
Lemma array_to_mat_invalid_type_allocates :
  array_to_mat MSG_console one_plane no_image CV_16U (∅, quiet)
  = Some (mkMat 1 1 CV_16U 1,
          ({[ 1%positive := Uninit 1 ]}, ["array_to_mat: invalid conversion"]))
  ∧ mkMat 1 1 CV_16U 1 ≠ no_image.
Proof. split; [by vm_compute | discriminate]. Qed.

(** C5, amended: for every single-plane device buffer and every requested
    type other than CV_32F, CV_64F and CV_8U, [array_to_mat] returns
    normally, reports "invalid conversion" through [MSG] and leaves every
    buffer of the host store as it was. *)
Theorem array_to_mat_invalid_type_reported {World : Type}
    (MSG : string → World → World) (input : array f32) (output : Mat)
    (type : Z) (s : state World) :
  dims2 input = 1 → type ≠ CV_32F → type ≠ CV_64F → type ≠ CV_8U →
  ∃ out' σ',
    array_to_mat MSG input output type s
    = Some (out', (σ', MSG "array_to_mat: invalid conversion" s.2))
    ∧ s.1 ⊆ σ'.
Proof.
  intros Hd H32 H64 H8. destruct s as [σ w].
  rewrite array_to_mat_invalid; [|done|].
  - eexists _, _. split; [reflexivity|]. simpl.
    apply insert_subseteq, not_elem_of_dom, is_fresh.
  - unfold read_back. by rewrite !decide_False.
Qed.

Lemma array_to_mat_invalid_type_reported_16U :
  dims2 one_plane = 1 ∧ CV_16U ≠ CV_32F ∧ CV_16U ≠ CV_64F ∧ CV_16U ≠ CV_8U
  ∧ ∃ out' σ',
      array_to_mat MSG_console one_plane no_image CV_16U (gray_2x2_store, quiet)
      = Some (out', (σ', ["array_to_mat: invalid conversion"]))
      ∧ gray_2x2_store ⊆ σ'.
Proof.
  split_and!; [reflexivity | discriminate | discriminate | discriminate |].
  apply (array_to_mat_invalid_type_reported
           MSG_console one_plane no_image CV_16U (gray_2x2_store, quiet));
    [reflexivity | discriminate..].
Defined.

(** ** Releasing device memory *)

(** C10: [free] returns without raising anything and leaves the device as
    it was, for every pointer: the call to [cudaFree] is compiled out. *)
Theorem free_is_a_no_op (ptr : Z) (d : thrust.device) :
  thrust.free ptr d = (thrust.Returned tt, d).
Proof.
  unfold thrust.free, thrust.pp_if.
  (* the condition of the [#if] is 0: the block is dropped *)
  by rewrite decide_True.
Qed.

(** ** Host to device and back *)

(** What the round trip does to one sample, by element type. *)

Lemma b8_of_float_of_int (n : Z) :
  (0 ≤ n < 256)%Z →
  b8_of_float (float_of_int n) = if decide (n = 0%Z) then 0%Z else 1%Z.
Proof.
  intros Hn.
  assert (forallb (λ k, Z.eqb (b8_of_float (float_of_int k))
                          (if decide (k = 0%Z) then 0%Z else 1%Z))
                  (seqZ 0 256) = true) as Hall by (by vm_compute).
  rewrite forallb_forall in Hall.
  apply Z.eqb_eq, Hall, list_elem_of_In, elem_of_seqZ. lia.
Qed.

(** A float image read back as CV_32F is the image itself. *)
Lemma round_trip_32F_exact {World : Type} (MSG : string → World → World)
    (junk : f32) (img out : Mat) (σ : gmap loc samples) (w : World) (fl : list f32) :
  σ !! data img = Some (Floats fl) →
  length fl = rows img * cols img → channels img = 1 →
  ∃ out' σ',
    round_trip MSG junk img out CV_32F (σ, w) = Some (out', (σ', w))
    ∧ rows out' = rows img ∧ cols out' = cols img
    ∧ σ' !! data out' = Some (Floats fl).
Proof.
  intros Hb Hlen Hcn.
  destruct (round_trip_Some MSG junk img out CV_32F σ w fl (Floats fl))
    as (out' & σ' & Heq & Hr & Hc & Hbuf & _); [|done..|by eauto 10].
  exists (Floats fl). split_and!; [done..|lia].
Qed.

(** A double image read back as CV_64F holds every sample rounded to
    float and widened again. *)
Lemma round_trip_64F_through_float {World : Type} (MSG : string → World → World)
    (junk : f32) (img out : Mat) (σ : gmap loc samples) (w : World) (dl : list f64) :
  σ !! data img = Some (Doubles dl) →
  length dl = rows img * cols img → channels img = 1 →
  ∃ out' σ',
    round_trip MSG junk img out CV_64F (σ, w) = Some (out', (σ', w))
    ∧ rows out' = rows img ∧ cols out' = cols img
    ∧ σ' !! data out'
      = Some (Doubles ((λ x, double_of_float (float_of_double x)) <$> dl)).
Proof.
  intros Hb Hlen Hcn.
  destruct (round_trip_Some MSG junk img out CV_64F σ w (float_of_double <$> dl)
              (Doubles (double_of_float <$> (float_of_double <$> dl))))
    as (out' & σ' & Heq & Hr & Hc & Hbuf & _); [|done..|].
  - exists (Doubles dl). split_and!; [done..|]. rewrite length_fmap. lia.
  - exists out', σ'. split_and!; try done.
    rewrite Hbuf. by rewrite <- list_fmap_compose.
Qed.

(** An 8-bit image read back as CV_8U holds 1 wherever the image had a
    sample other than 0. *)
Lemma round_trip_8U_boolean {World : Type} (MSG : string → World → World)
    (junk : f32) (img out : Mat) (σ : gmap loc samples) (w : World) (il : list Z) :
  σ !! data img = Some (Ints il) →
  Forall (λ n, 0 ≤ n < 256)%Z il →
  length il = rows img * cols img → channels img = 1 →
  ∃ out' σ',
    round_trip MSG junk img out CV_8U (σ, w) = Some (out', (σ', w))
    ∧ rows out' = rows img ∧ cols out' = cols img
    ∧ σ' !! data out'
      = Some (Ints ((λ n, if decide (n = 0%Z) then 0%Z else 1%Z) <$> il)).
Proof.
  intros Hb Hrange Hlen Hcn.
  destruct (round_trip_Some MSG junk img out CV_8U σ w (float_of_int <$> il)
              (Ints (b8_of_float <$> (float_of_int <$> il))))
    as (out' & σ' & Heq & Hr & Hc & Hbuf & _); [|done..|].
  - exists (Ints il). split_and!; [done..|]. rewrite length_fmap. lia.
  - exists out', σ'. split_and!; try done.
    rewrite Hbuf. do 2 f_equal. rewrite <- list_fmap_compose.
    apply Forall_fmap_ext_1. eapply Forall_impl; [exact Hrange|].
    intros n Hn. simpl. by apply b8_of_float_of_int.
Qed.

(** C1 fails on the code for 8-bit images: a 1x1 CV_8U image holding 2,
    taken to the device and read back as CV_8U, holds 1.  The cast
    [as(af::b8)] is a cast to ArrayFire's boolean type. *)
Theorem round_trip_8U_pixel_not_reproduced :
  returned_buffer
    (round_trip MSG_console (S754_zero false) gray_pixel no_image CV_8U
                (gray_pixel_store, quiet))
  = Some (Ints [1%Z])
  ∧ gray_pixel_store !! data gray_pixel = Some (Ints [2%Z]).
Proof. split; by vm_compute. Qed.

(** C3 holds up to the device and fails on the way back: the 2x2 image
    [[1, 2], [3, 4]] becomes a device plane that transposed reads
    1, 2, 3, 4, and reading that plane back as CV_8U yields
    [[1, 1], [1, 1]]. *)
Theorem round_trip_2x2_8U_yields_ones :
  fst <$> mat_to_array (S754_zero false) gray_2x2 (gray_2x2_store, quiet)
  = Some (mkArray 2 2 1 (float_of_int <$> [1; 3; 2; 4]%Z))
  ∧ host (T (mkArray 2 2 1 (float_of_int <$> [1; 3; 2; 4]%Z)))
    = float_of_int <$> [1; 2; 3; 4]%Z
  ∧ returned_buffer
      (array_to_mat MSG_console (mkArray 2 2 1 (float_of_int <$> [1; 3; 2; 4]%Z))
                    no_image CV_8U (gray_2x2_store, quiet))
    = Some (Ints [1; 1; 1; 1]%Z).
Proof. split_and!; by vm_compute. Qed.

(** ** Host to device: planes and layout *)

(** C2: for every 3-channel host image, the device buffer has in plane 0
    the transpose of host channel 2, in plane 1 that of channel 1 and in
    plane 2 that of channel 0, all widened to float; element [(r, c)] of
    plane [k] is the sample of pixel [(r, c)] in channel [2 - k]. *)
Theorem mat_to_array_color_planes {World : Type} (junk : f32) (m : Mat)
    (σ : gmap loc samples) (w : World) (fl : list f32) :
  image_in σ m fl → channels m = 3 →
  ∃ out σ',
    mat_to_array junk m (σ, w) = Some (out, (σ', w))
    ∧ plane 0 out = T (channel_matrix m fl 2)
    ∧ plane 1 out = T (channel_matrix m fl 1)
    ∧ plane 2 out = T (channel_matrix m fl 0)
    ∧ ∀ r c k, r < rows m → c < cols m → k < 3 →
        at_ out r c k = pixel m fl r c (2 - k).
Proof.
  intros Himg Hcn.
  destruct (mat_to_array_Some junk m σ w fl Himg) as (σ' & Heq & _).
  destruct Himg as (b & _ & _ & Hlen).
  assert (planes (channels m) = 3) as Hpl by (by rewrite Hcn).
  assert (∀ k, source_channel (channels m) k = 2 - k) as Hsrc
    by (intros k; by rewrite Hcn).
  exists (device_image m fl), σ'. split; [done|].
  split_and!.
  - rewrite device_image_plane by lia. by rewrite Hsrc.
  - rewrite device_image_plane by lia. by rewrite Hsrc.
  - rewrite device_image_plane by lia. by rewrite Hsrc.
  - intros r c k Hr Hc Hk. rewrite device_image_at by lia. by rewrite Hsrc.
Qed.

Lemma mat_to_array_color_planes_bgr_pixel :
  image_in bgr_store bgr_pixel (float_of_int <$> [10; 20; 30]%Z)
  ∧ channels bgr_pixel = 3
  ∧ ∃ out σ',
      mat_to_array (S754_zero false) bgr_pixel (bgr_store, quiet)
      = Some (out, (σ', quiet))
      ∧ at_ out 0 0 0 = Some (float_of_int 30)
      ∧ at_ out 0 0 1 = Some (float_of_int 20)
      ∧ at_ out 0 0 2 = Some (float_of_int 10).
Proof.
  assert (image_in bgr_store bgr_pixel (float_of_int <$> [10; 20; 30]%Z)) as Himg
    by (exists (Ints [10; 20; 30]%Z); split_and!; reflexivity).
  split; [exact Himg|]. split; [reflexivity|].
  destruct (mat_to_array_color_planes (S754_zero false) bgr_pixel bgr_store quiet
              _ Himg eq_refl) as (out & σ' & Heq & _ & _ & _ & Hat).
  exists out, σ'. split; [exact Heq|].
  split_and!; (rewrite Hat; [reflexivity | simpl; lia..]).
Defined.

(** The 2-channel branch, for every channel count that reaches it. *)
Lemma mat_to_array_else_branch {World : Type} (junk : f32) (m : Mat)
    (σ : gmap loc samples) (w : World) (fl : list f32) :
  image_in σ m fl → channels m ≠ 1 → channels m ≠ 3 →
  ∃ out σ',
    mat_to_array junk m (σ, w) = Some (out, (σ', w))
    ∧ dims2 out = 2
    ∧ plane 0 out = T (channel_matrix m fl 1)
    ∧ plane 1 out = T (channel_matrix m fl 0)
    ∧ ∀ r c k, r < rows m → c < cols m → k < 2 →
        at_ out r c k = pixel m fl r c (1 - k).
Proof.
  intros Himg Hcn1 Hcn3.
  destruct (mat_to_array_Some junk m σ w fl Himg) as (σ' & Heq & _).
  destruct Himg as (b & _ & _ & Hlen).
  assert (planes (channels m) = 2) as Hpl
    by (unfold planes; by rewrite !decide_False).
  assert (∀ k, source_channel (channels m) k = 1 - k) as Hsrc
    by (intros k; unfold source_channel; by rewrite !decide_False).
  exists (device_image m fl), σ'. split; [done|].
  split_and!.
  - done.
  - rewrite device_image_plane by lia. by rewrite Hsrc.
  - rewrite device_image_plane by lia. by rewrite Hsrc.
  - intros r c k Hr Hc Hk. rewrite device_image_at by lia. by rewrite Hsrc.
Qed.

(** C6: for every 2-channel host image, the device buffer has in plane 0
    the transpose of host channel 1 and in plane 1 the transpose of host
    channel 0, widened to float. *)
Theorem mat_to_array_two_channel_planes {World : Type} (junk : f32) (m : Mat)
    (σ : gmap loc samples) (w : World) (fl : list f32) :
  image_in σ m fl → channels m = 2 →
  ∃ out σ',
    mat_to_array junk m (σ, w) = Some (out, (σ', w))
    ∧ plane 0 out = T (channel_matrix m fl 1)
    ∧ plane 1 out = T (channel_matrix m fl 0)
    ∧ ∀ r c k, r < rows m → c < cols m → k < 2 →
        at_ out r c k = pixel m fl r c (1 - k).
Proof.
  intros Himg Hcn.
  destruct (mat_to_array_else_branch junk m σ w fl Himg)
    as (out & σ' & Heq & _ & Hp0 & Hp1 & Hat); [lia..|].
  by exists out, σ'.
Qed.

Lemma mat_to_array_two_channel_planes_pair :
  image_in pair_1x2_store pair_1x2 (float_of_int <$> [1; 2; 3; 4]%Z)
  ∧ channels pair_1x2 = 2
  ∧ ∃ out σ',
      mat_to_array (S754_zero false) pair_1x2 (pair_1x2_store, quiet)
      = Some (out, (σ', quiet))
      ∧ at_ out 0 0 0 = Some (float_of_int 2)
      ∧ at_ out 0 1 0 = Some (float_of_int 4)
      ∧ at_ out 0 0 1 = Some (float_of_int 1)
      ∧ at_ out 0 1 1 = Some (float_of_int 3).
Proof.
  assert (image_in pair_1x2_store pair_1x2 (float_of_int <$> [1; 2; 3; 4]%Z))
    as Himg by (exists (Ints [1; 2; 3; 4]%Z); split_and!; reflexivity).
  split; [exact Himg|]. split; [reflexivity|].
  destruct (mat_to_array_two_channel_planes (S754_zero false) pair_1x2
              pair_1x2_store quiet _ Himg eq_refl)
    as (out & σ' & Heq & _ & _ & Hat).
  exists out, σ'. split; [exact Heq|].
  split_and!; (rewrite Hat; [reflexivity | simpl; lia..]).
Defined.

(** C7: for every host image whose channel count is neither 1 nor 3,
    [mat_to_array] takes the 2-channel path: it returns, reports nothing,
    and yields two planes, the transposes of host channels 1 and 0,
    whatever the channel count is. *)
Theorem mat_to_array_other_channel_counts {World : Type} (junk : f32) (m : Mat)
    (σ : gmap loc samples) (w : World) (fl : list f32) :
  image_in σ m fl → channels m ≠ 1 → channels m ≠ 3 →
  ∃ out σ',
    mat_to_array junk m (σ, w) = Some (out, (σ', w))
    ∧ dims2 out = 2
    ∧ plane 0 out = T (channel_matrix m fl 1)
    ∧ plane 1 out = T (channel_matrix m fl 0).
Proof.
  intros Himg Hcn1 Hcn3.
  destruct (mat_to_array_else_branch junk m σ w fl Himg Hcn1 Hcn3)
    as (out & σ' & Heq & Hd & Hp0 & Hp1 & _).
  by exists out, σ'.
Qed.

Lemma mat_to_array_other_channel_counts_bgra :
  image_in bgra_store bgra_pixel (float_of_int <$> [10; 20; 30; 40]%Z)
  ∧ channels bgra_pixel ≠ 1 ∧ channels bgra_pixel ≠ 3
  ∧ ∃ out σ',
      mat_to_array (S754_zero false) bgra_pixel (bgra_store, quiet)
      = Some (out, (σ', quiet))
      ∧ dims2 out = 2
      ∧ plane 0 out = mkArray 1 1 1 [float_of_int 20]
      ∧ plane 1 out = mkArray 1 1 1 [float_of_int 10].
Proof.
  assert (image_in bgra_store bgra_pixel (float_of_int <$> [10; 20; 30; 40]%Z))
    as Himg by (exists (Ints [10; 20; 30; 40]%Z); split_and!; reflexivity).
  assert (channels bgra_pixel ≠ 1) as H1 by discriminate.
  assert (channels bgra_pixel ≠ 3) as H3 by discriminate.
  split; [exact Himg|]. split; [exact H1|]. split; [exact H3|].
  destruct (mat_to_array_other_channel_counts (S754_zero false) bgra_pixel
              bgra_store quiet _ Himg H1 H3)
    as (out & σ' & Heq & Hd & Hp0 & Hp1).
  exists out, σ'. split; [exact Heq|]. split; [exact Hd|].
  split; [rewrite Hp0 | rewrite Hp1]; reflexivity.
Defined.

(** C9, as stated, fails: an image of height 1 and width 2 goes to the
    device as a buffer whose first dimension is 1, the height, and whose
    second is 2, the width. *)
Lemma mat_to_array_dims_are_rows_then_cols :
  fst <$> mat_to_array (S754_zero false) gray_1x2 (gray_1x2_store, quiet)
  = Some (mkArray 1 2 1 (float_of_int <$> [5; 6]%Z))
  ∧ (1, 2) ≠ (cols gray_1x2, rows gray_1x2).
Proof. split; [by vm_compute | discriminate]. Qed.

(** C9, amended: for every host image of [H] rows and [W] columns with [C]
    channels, the device buffer has the dimensions [(H, W, P)], where [P] is
    [C] for 1 and 3 channels and 2 otherwise, and is stored column-major:
    the element at offset [r + H * (c + W * k)] is the sample the host
    keeps at [(r * W + c) * C + ch], for [ch] the source channel of plane
    [k].  Each plane has the rows and columns of the host image; what is
    transposed is the order of storage. *)
Theorem mat_to_array_layout {World : Type} (junk : f32) (m : Mat)
    (σ : gmap loc samples) (w : World) (fl : list f32) :
  image_in σ m fl →
  ∃ out σ',
    mat_to_array junk m (σ, w) = Some (out, (σ', w))
    ∧ dims0 out = rows m ∧ dims1 out = cols m
    ∧ dims2 out = planes (channels m)
    ∧ length (elems out) = rows m * cols m * planes (channels m)
    ∧ ∀ r c k, r < rows m → c < cols m → k < planes (channels m) →
        elems out !! (r + rows m * (c + cols m * k))
        = fl !! ((r * cols m + c) * channels m + source_channel (channels m) k).
Proof.
  intros Himg.
  destruct (mat_to_array_Some junk m σ w fl Himg) as (σ' & Heq & _).
  destruct Himg as (b & _ & _ & Hlen).
  exists (device_image m fl), σ'. split; [done|].
  split_and!; [done..| by apply device_image_length |].
  intros r c k Hr Hc Hk. by apply (device_image_at m fl r c k).
Qed.

Lemma mat_to_array_layout_gray_1x2 :
  image_in gray_1x2_store gray_1x2 (float_of_int <$> [5; 6]%Z)
  ∧ ∃ out σ',
      mat_to_array (S754_zero false) gray_1x2 (gray_1x2_store, quiet)
      = Some (out, (σ', quiet))
      ∧ dims0 out = 1 ∧ dims1 out = 2 ∧ dims2 out = 1
      ∧ elems out !! 1 = Some (float_of_int 6).
Proof.
  assert (image_in gray_1x2_store gray_1x2 (float_of_int <$> [5; 6]%Z))
    as Himg by (exists (Ints [5; 6]%Z); split_and!; reflexivity).
  split; [exact Himg|].
  destruct (mat_to_array_layout (S754_zero false) gray_1x2 gray_1x2_store quiet
              _ Himg) as (out & σ' & Heq & Hd0 & Hd1 & Hd2 & _ & Hat).
  exists out, σ'. split; [exact Heq|].
  split; [exact Hd0|]. split; [exact Hd1|]. split; [exact Hd2|].
  etrans; [apply (Hat 0 1 0); vm_compute; lia | reflexivity].
Defined.

(** ** The caller's buffers *)

(** Called on an image directly, [mat_to_array_] replaces its samples. *)
Example mat_to_array__overwrites_its_argument :
  (λ r, r.2.1 !! data gray_2x2)
    <$> mat_to_array_ (S754_zero false) gray_2x2 (gray_2x2_store, quiet)
  = Some (Some (Floats (float_of_int <$> [1; 2; 3; 4]%Z))).
Proof. by vm_compute. Qed.

(** C8: whichever of the two public [mat_to_array] is called, every
    buffer the host store held before the call holds the same samples
    after it; the conversion in place happens in the clone. *)
Theorem mat_to_array_keeps_caller_buffers {World : Type} (junk : f32)
    (m : Mat) (output out : array f32) (s s' : state World) :
  mat_to_array junk m s = Some (out, s')
  ∨ mat_to_array_into junk m output s = Some (out, s') →
  ∀ l b, s.1 !! l = Some b → s'.1 !! l = Some b.
Proof.
  intros H l b Hl.
  assert (mat_to_array junk m s = Some (out, s')) as Heq.
  { destruct H as [H|H]; [done|]. by rewrite <- (mat_to_array_into_eq junk m output). }
  apply mat_to_array_frame in Heq as [Hsub _].
  by eapply lookup_weaken.
Qed.

Lemma mat_to_array_keeps_caller_buffers_gray_2x2 :
  (mat_to_array (S754_zero false) gray_2x2 (gray_2x2_store, quiet)
   = Some (mkArray 2 2 1 (float_of_int <$> [1; 3; 2; 4]%Z),
           (<[2%positive := Floats (float_of_int <$> [1; 2; 3; 4]%Z)]> gray_2x2_store,
            quiet))
   ∨ mat_to_array_into (S754_zero false) gray_2x2 (alloc S754_nan 0 0 0)
       (gray_2x2_store, quiet)
     = Some (mkArray 2 2 1 (float_of_int <$> [1; 3; 2; 4]%Z),
             (<[2%positive := Floats (float_of_int <$> [1; 2; 3; 4]%Z)]> gray_2x2_store,
              quiet)))
  ∧ (<[2%positive := Floats (float_of_int <$> [1; 2; 3; 4]%Z)]> gray_2x2_store)
      !! data gray_2x2
    = Some (Ints [1; 2; 3; 4]%Z).
Proof.
  assert (mat_to_array (S754_zero false) gray_2x2 (gray_2x2_store, quiet)
          = Some (mkArray 2 2 1 (float_of_int <$> [1; 3; 2; 4]%Z),
                  (<[2%positive := Floats (float_of_int <$> [1; 2; 3; 4]%Z)]>
                     gray_2x2_store, quiet))) as Heq by (vm_compute; reflexivity).
  split; [left; exact Heq|].
  apply (mat_to_array_keeps_caller_buffers (S754_zero false) gray_2x2
           (alloc S754_nan 0 0 0) _ (gray_2x2_store, quiet) _ (or_introl Heq)
           1%positive (Ints [1; 2; 3; 4]%Z)).
  reflexivity.
Defined.

(** * Further properties of the converters *)

(** ** Headers and stores, step by step *)

Lemma CV_MAT_DEPTH_MAKETYPE depth cn :
  (1 ≤ cn ≤ 512)%Z → CV_MAT_DEPTH (CV_MAKETYPE depth cn) = CV_MAT_DEPTH depth.
Proof.
  intros Hcn. unfold CV_MAKETYPE, CV_MAT_DEPTH, CV_CN_SHIFT.
  change 7%Z with (Z.ones 3). rewrite !Z.land_ones by lia.
  rewrite Z.shiftl_mul_pow2 by lia.
  rewrite Z.add_mod, Z.mod_mul, Z.add_0_r by lia.
  by rewrite !Z.mod_mod by lia.
Qed.

Lemma convertTo_header {World : Type} (m : Mat) (rtype : Z)
    (s : state World) m' s' :
  convertTo m rtype s = Some (m', s') →
  CV_MAT_DEPTH rtype = CV_32F
  ∧ m' = mkMat (rows m) (cols m) (CV_MAKETYPE rtype (CV_MAT_CN (flags m))) (data m).
Proof.
  destruct s as [σ w]. unfold convertTo. case_decide; [|done].
  unfold bind, load, lift, store, ret. simpl.
  destruct (σ !! data m) as [b|] eqn:Hb; [|done].
  destruct (widen b) as [fl|]; [|done]. simpl. rewrite Hb.
  by intros [= <- <-].
Qed.

Lemma device_image_ext {A : Type} (m m' : Mat) (l : list A) :
  rows m' = rows m → cols m' = cols m → channels m' = channels m →
  device_image m' l = device_image m l.
Proof.
  intros Hr Hc Hcn. unfold device_image, channel_matrix.
  by rewrite Hr, Hc, Hcn.
Qed.

Section Headers.
Context {World : Type}.
Variable junk : f32.
Implicit Types (σ : gmap loc samples) (w : World) (m : Mat) (fl : list f32).
Implicit Types (s : state World).

Ltac step H :=
  let x := fresh "x" in
  let s := fresh "s" in
  let Hx := fresh "Hstep" in
  apply bind_inv in H as (x & s & Hx & H).

Lemma converted_header m rtype :
  CV_MAT_DEPTH rtype = CV_32F →
  let m' := mkMat (rows m) (cols m) (CV_MAKETYPE rtype (CV_MAT_CN (flags m))) (data m) in
  rows m' = rows m ∧ cols m' = cols m ∧ data m' = data m
  ∧ channels m' = channels m ∧ CV_MAT_DEPTH (flags m') = CV_32F.
Proof.
  intros Hd m'. split_and!; try done.
  - apply (channels_convertTo (rows m) (cols m) (flags m) (data m) rtype).
  - unfold m'. simpl. rewrite CV_MAT_DEPTH_MAKETYPE by apply CV_MAT_CN_range.
    done.
Qed.

Lemma mat_to_array__header m s m' out s' :
  mat_to_array_ junk m s = Some ((m', out), s') →
  rows m' = rows m ∧ cols m' = cols m ∧ data m' = data m
  ∧ channels m' = channels m ∧ CV_MAT_DEPTH (flags m') = CV_32F.
Proof.
  unfold mat_to_array_. intros H. repeat case_decide.
  - step H. apply convertTo_header in Hstep as [Hd ->].
    step H. step H. apply ret_inv in H as [[= -> _] _].
    by apply converted_header.
  - step H. apply convertTo_header in Hstep as [Hd ->].
    step H. do 3 step H. apply ret_inv in H as [[= -> _] _].
    by apply converted_header.
  - step H. apply convertTo_header in Hstep as [Hd ->].
    step H. do 2 step H. apply ret_inv in H as [[= -> _] _].
    by apply converted_header.
Qed.

Lemma mat_to_array_explicit m σ w fl :
  image_in σ m fl →
  mat_to_array junk m (σ, w)
  = Some (device_image m fl, (<[fresh (dom σ) := Floats fl]> σ, w)).
Proof.
  intros (b & Hb & Hfl & Hlen). unfold mat_to_array.
  erewrite bind_Some by (by apply clone_Some).
  set (l := fresh (dom σ)).
  set (tmp := mkMat (rows m) (cols m) (flags m) l).
  assert (image_in (<[l := b]> σ) tmp fl) as Htmp.
  { exists b. split_and!; [apply lookup_insert_eq|done..]. }
  destruct (mat_to_array__Some junk tmp _ w fl Htmp) as (m' & Heq & _).
  erewrite bind_Some by exact Heq.
  unfold ret. simpl. by rewrite insert_insert_eq.
Qed.

End Headers.

(** ** Host to device and back, in general *)

(** X1: a single-channel image taken to the device and read back with any
    of the three types [array_to_mat] supports gives an image of the same
    shape whose buffer holds the samples widened to float and cast to the
    requested type; nothing is reported and no buffer that existed is
    changed. *)
Theorem round_trip_single_channel {World : Type} (MSG : string → World → World)
    (junk : f32) (img out : Mat) (type : Z) (σ : gmap loc samples) (w : World)
    (fl : list f32) (b : samples) :
  image_in σ img fl → channels img = 1 → read_back type fl = Some b →
  ∃ out' σ',
    round_trip MSG junk img out type (σ, w) = Some (out', (σ', w))
    ∧ rows out' = rows img ∧ cols out' = cols img
    ∧ σ' !! data out' = Some b
    ∧ σ ⊆ σ'.
Proof. apply round_trip_Some. Qed.

Lemma round_trip_single_channel_gray_as_float :
  image_in gray_2x2_store gray_2x2 (float_of_int <$> [1; 2; 3; 4]%Z)
  ∧ channels gray_2x2 = 1
  ∧ read_back CV_32F (float_of_int <$> [1; 2; 3; 4]%Z)
    = Some (Floats (float_of_int <$> [1; 2; 3; 4]%Z))
  ∧ ∃ out' σ',
      round_trip MSG_console (S754_zero false) gray_2x2 no_image CV_32F
                 (gray_2x2_store, quiet) = Some (out', (σ', quiet))
      ∧ rows out' = 2 ∧ cols out' = 2
      ∧ σ' !! data out' = Some (Floats (float_of_int <$> [1; 2; 3; 4]%Z))
      ∧ gray_2x2_store ⊆ σ'.
Proof.
  assert (image_in gray_2x2_store gray_2x2 (float_of_int <$> [1; 2; 3; 4]%Z))
    as Himg by (exists (Ints [1; 2; 3; 4]%Z); split_and!; reflexivity).
  split; [exact Himg|]. split; [reflexivity|]. split; [reflexivity|].
  exact (round_trip_single_channel MSG_console (S754_zero false) gray_2x2
           no_image CV_32F gray_2x2_store quiet _ _ Himg eq_refl eq_refl).
Defined.

(** Witnesses of the three matching-type round trips. *)

Lemma round_trip_32F_exact_float_2x2 :
  float_2x2_store !! data float_2x2 = Some (Floats float_2x2_samples)
  ∧ length float_2x2_samples = rows float_2x2 * cols float_2x2
  ∧ channels float_2x2 = 1
  ∧ ∃ out' σ',
      round_trip MSG_console (S754_zero false) float_2x2 no_image CV_32F
                 (float_2x2_store, quiet) = Some (out', (σ', quiet))
      ∧ rows out' = rows float_2x2 ∧ cols out' = cols float_2x2
      ∧ σ' !! data out' = Some (Floats float_2x2_samples).
Proof.
  split; [reflexivity|]. split; [reflexivity|]. split; [reflexivity|].
  exact (round_trip_32F_exact MSG_console (S754_zero false) float_2x2 no_image
           float_2x2_store quiet float_2x2_samples eq_refl eq_refl eq_refl).
Defined.

Lemma round_trip_64F_through_float_tenth :
  double_pixel_store !! data double_pixel = Some (Doubles [double_tenth])
  ∧ length [double_tenth] = rows double_pixel * cols double_pixel
  ∧ channels double_pixel = 1
  ∧ ∃ out' σ',
      round_trip MSG_console (S754_zero false) double_pixel no_image CV_64F
                 (double_pixel_store, quiet) = Some (out', (σ', quiet))
      ∧ rows out' = rows double_pixel ∧ cols out' = cols double_pixel
      ∧ σ' !! data out'
        = Some (Doubles ((λ x, double_of_float (float_of_double x))
                           <$> [double_tenth])).
Proof.
  split; [reflexivity|]. split; [reflexivity|]. split; [reflexivity|].
  exact (round_trip_64F_through_float MSG_console (S754_zero false) double_pixel
           no_image double_pixel_store quiet [double_tenth]
           eq_refl eq_refl eq_refl).
Defined.

Lemma round_trip_8U_boolean_gray_2x2 :
  gray_2x2_store !! data gray_2x2 = Some (Ints [1; 2; 3; 4]%Z)
  ∧ Forall (λ n, 0 ≤ n < 256)%Z [1; 2; 3; 4]%Z
  ∧ length [1; 2; 3; 4]%Z = rows gray_2x2 * cols gray_2x2
  ∧ channels gray_2x2 = 1
  ∧ ∃ out' σ',
      round_trip MSG_console (S754_zero false) gray_2x2 no_image CV_8U
                 (gray_2x2_store, quiet) = Some (out', (σ', quiet))
      ∧ rows out' = rows gray_2x2 ∧ cols out' = cols gray_2x2
      ∧ σ' !! data out'
        = Some (Ints ((λ n, if decide (n = 0%Z) then 0%Z else 1%Z)
                        <$> [1; 2; 3; 4]%Z)).
Proof.
  assert (Forall (λ n, 0 ≤ n < 256)%Z [1; 2; 3; 4]%Z) as Hrange
    by (repeat constructor; lia).
  split; [reflexivity|]. split; [exact Hrange|].
  split; [reflexivity|]. split; [reflexivity|].
  exact (round_trip_8U_boolean MSG_console (S754_zero false) gray_2x2 no_image
           gray_2x2_store quiet [1; 2; 3; 4]%Z eq_refl Hrange eq_refl eq_refl).
Defined.

(** X5: an image with more than one channel cannot be read back: its
    device buffer has two or three planes, so [array_to_mat] reports
    "input must be 1 channel" and hands the output header back as it
    was. *)
Theorem round_trip_multi_channel_rejected {World : Type}
    (MSG : string → World → World) (junk : f32) (img out : Mat) (type : Z)
    (σ : gmap loc samples) (w : World) (fl : list f32) :
  image_in σ img fl → channels img ≠ 1 →
  ∃ σ',
    round_trip MSG junk img out type (σ, w)
    = Some (out, (σ', MSG "array_to_mat: input must be 1 channel." w))
    ∧ σ ⊆ σ'.
Proof.
  intros Himg Hcn. unfold round_trip.
  erewrite bind_Some by (by apply mat_to_array_explicit).
  rewrite array_to_mat_planes.
  - eexists. split; [reflexivity|]. destruct Himg as (b & Hb & _).
    apply insert_subseteq, not_elem_of_dom, is_fresh.
  - unfold device_image, planes. simpl. repeat case_decide; lia.
Qed.

Lemma round_trip_multi_channel_rejected_bgr :
  image_in bgr_store bgr_pixel (float_of_int <$> [10; 20; 30]%Z)
  ∧ channels bgr_pixel ≠ 1
  ∧ ∃ σ',
      round_trip MSG_console (S754_zero false) bgr_pixel no_image CV_32F
                 (bgr_store, quiet)
      = Some (no_image, (σ', ["array_to_mat: input must be 1 channel."]))
      ∧ bgr_store ⊆ σ'.
Proof.
  assert (image_in bgr_store bgr_pixel (float_of_int <$> [10; 20; 30]%Z)) as Himg
    by (exists (Ints [10; 20; 30]%Z); split_and!; reflexivity).
  assert (channels bgr_pixel ≠ 1) as Hcn by discriminate.
  split; [exact Himg|]. split; [exact Hcn|].
  exact (round_trip_multi_channel_rejected MSG_console (S754_zero false)
           bgr_pixel no_image CV_32F bgr_store quiet _ Himg Hcn).
Defined.

(** ** Device to host *)

(** X6: for a single-plane device matrix and a supported type,
    [array_to_mat] reports nothing and returns a header of [dims0] rows and
    [dims1] columns of the requested type over a buffer of its own, newly
    allocated; the buffer is row-major: what it holds at [r * cols + c]
    comes from element [(r, c)] of the matrix. *)
Theorem array_to_mat_single_plane {World : Type} (MSG : string → World → World)
    (input : array f32) (output : Mat) (type : Z) (σ : gmap loc samples)
    (w : World) (b : samples) :
  dims2 input = 1 → length (elems input) = dims0 input * dims1 input →
  read_back type (host (T input)) = Some b →
  ∃ out',
    array_to_mat MSG input output type (σ, w)
    = Some (out', (<[data out' := b]> σ, w))
    ∧ σ !! data out' = None
    ∧ rows out' = dims0 input ∧ cols out' = dims1 input ∧ flags out' = type
    ∧ ∀ r c, r < dims0 input → c < dims1 input →
        host (T input) !! (r * dims1 input + c) = at_ input r c 0.
Proof.
  intros Hd Hlen Hb.
  exists (mkMat (dims0 input) (dims1 input) (CV_MAT_TYPE type) (fresh (dom σ))).
  split; [by apply array_to_mat_Some|].
  split; [apply not_elem_of_dom, is_fresh|].
  split; [done|]. split; [done|]. split.
  - unfold read_back in Hb. simpl. repeat case_decide; by subst.
  - intros r c Hr Hc. unfold host, at_, offset.
    replace (r * dims1 input + c) with (c + dims1 input * r) by lia.
    rewrite T_lookup by done. f_equal. lia.
Qed.

Lemma array_to_mat_single_plane_dev_2x2 :
  dims2 dev_2x2 = 1 ∧ length (elems dev_2x2) = dims0 dev_2x2 * dims1 dev_2x2
  ∧ read_back CV_32F (host (T dev_2x2))
    = Some (Floats (float_of_int <$> [1; 2; 3; 4]%Z))
  ∧ ∃ out',
      array_to_mat MSG_console dev_2x2 no_image CV_32F (∅, quiet)
      = Some (out', (<[data out' := Floats (float_of_int <$> [1; 2; 3; 4]%Z)]> ∅,
                     quiet))
      ∧ (∅ : gmap loc samples) !! data out' = None
      ∧ rows out' = 2 ∧ cols out' = 2 ∧ flags out' = CV_32F
      ∧ ∀ r c, r < 2 → c < 2 →
          host (T dev_2x2) !! (r * 2 + c) = at_ dev_2x2 r c 0.
Proof.
  split; [reflexivity|]. split; [reflexivity|]. split; [reflexivity|].
  exact (array_to_mat_single_plane MSG_console dev_2x2 no_image CV_32F ∅ quiet
           _ eq_refl eq_refl eq_refl).
Defined.



(** X12: the overload that returns its result gives, for a device buffer
    with more than one plane, the header it declared and never filled: an
    image of no rows and no columns; the store is unchanged and the
    failure is reported through [MSG]. *)
Theorem array_to_mat_value_multi_plane_empty {World : Type}
    (MSG : string → World → World) (null : loc) (input : array f32) (type : Z)
    (s : state World) :
  1 < dims2 input →
  ∃ out',
    array_to_mat_value MSG null input type s
    = Some (out', (s.1, MSG "array_to_mat: input must be 1 channel." s.2))
    ∧ rows out' = 0 ∧ cols out' = 0 ∧ data out' = null.
Proof.
  intros Hd. exists (Mat_default null). unfold array_to_mat_value.
  erewrite bind_Some by (apply array_to_mat_planes; lia). done.
Qed.

Lemma array_to_mat_value_multi_plane_empty_two_planes :
  1 < dims2 two_planes
  ∧ ∃ out',
      array_to_mat_value MSG_console 9%positive two_planes CV_32F
                         (gray_2x2_store, quiet)
      = Some (out', (gray_2x2_store, ["array_to_mat: input must be 1 channel."]))
      ∧ rows out' = 0 ∧ cols out' = 0 ∧ data out' = 9%positive.
Proof.
  assert (1 < dims2 two_planes) as Hd by (simpl; lia).
  split; [exact Hd|].
  exact (array_to_mat_value_multi_plane_empty MSG_console 9%positive two_planes
           CV_32F (gray_2x2_store, quiet) Hd).
Defined.

(** X11: device to host and back: a single-plane device matrix written
    to the host as CV_32F and converted again is the matrix itself. *)
Theorem device_host_device_32F {World : Type} (MSG : string → World → World)
    (junk : f32) (a : array f32) (output : Mat) (σ : gmap loc samples) (w : World) :
  dims2 a = 1 → length (elems a) = dims0 a * dims1 a →
  ∃ m σ1 σ2,
    array_to_mat MSG a output CV_32F (σ, w) = Some (m, (σ1, w))
    ∧ mat_to_array junk m (σ1, w) = Some (a, (σ2, w)).
Proof.
  intros Hd Hlen.
  set (m := mkMat (dims0 a) (dims1 a) (CV_MAT_TYPE CV_32F) (fresh (dom σ))).
  set (σ1 := <[fresh (dom σ) := Floats (elems (T a))]> σ).
  assert (channels m = 1) as Hcn by reflexivity.
  assert (image_in σ1 m (elems (T a))) as Himg.
  { exists (Floats (elems (T a))). split_and!.
    - apply lookup_insert_eq.
    - done.
    - rewrite T_length by done. rewrite Hcn. simpl. lia. }
  exists m, σ1, (<[fresh (dom σ1) := Floats (elems (T a))]> σ1).
  split; [by apply array_to_mat_Some|].
  rewrite (mat_to_array_explicit junk m σ1 w _ Himg). do 2 f_equal.
  destruct Himg as (_ & _ & _ & HlenT).
  rewrite device_image_single by done. simpl rows. simpl cols.
  assert (mkArray (dims1 a) (dims0 a) 1 (elems (T a)) = T a) as ->
    by (unfold T; simpl; by rewrite Hd).
  by apply T_involutive.
Qed.

Lemma device_host_device_32F_dev_2x2 :
  dims2 dev_2x2 = 1 ∧ length (elems dev_2x2) = dims0 dev_2x2 * dims1 dev_2x2
  ∧ ∃ m σ1 σ2,
      array_to_mat MSG_console dev_2x2 no_image CV_32F (∅, quiet)
      = Some (m, (σ1, quiet))
      ∧ mat_to_array (S754_zero false) m (σ1, quiet) = Some (dev_2x2, (σ2, quiet)).
Proof.
  split; [reflexivity|]. split; [reflexivity|].
  exact (device_host_device_32F MSG_console (S754_zero false) dev_2x2 no_image
           ∅ quiet eq_refl eq_refl).
Defined.

(** ** Host to device: the working copy and the result *)

(** X8: [mat_to_array_] changes the image it is given: for an image
    with pixels, the header the call leaves describes a float image,
    depth CV_32F, with the rows, columns and channel count it had, also
    when that count is none of 1, 2 and 3. *)
Theorem mat_to_array__leaves_float_header {World : Type} (junk : f32)
    (m : Mat) (σ : gmap loc samples) (w : World) (fl : list f32) :
  image_in σ m fl → 0 < rows m → 0 < cols m →
  ∃ m' out s',
    mat_to_array_ junk m (σ, w) = Some ((m', out), s')
    ∧ rows m' = rows m ∧ cols m' = cols m
    ∧ channels m' = channels m ∧ CV_MAT_DEPTH (flags m') = CV_32F.
Proof.
  intros Himg _ _.
  destruct (mat_to_array__Some junk m σ w fl Himg) as (m' & Heq & _).
  destruct (mat_to_array__header junk m _ _ _ _ Heq)
    as (Hr & Hc & _ & Hcn & Hdepth).
  exists m', (device_image m fl), (<[data m := Floats fl]> σ, w).
  by split_and!.
Qed.

Lemma mat_to_array__leaves_float_header_bgra :
  image_in bgra_store bgra_pixel (float_of_int <$> [10; 20; 30; 40]%Z)
  ∧ 0 < rows bgra_pixel ∧ 0 < cols bgra_pixel
  ∧ ∃ m' out s',
      mat_to_array_ (S754_zero false) bgra_pixel (bgra_store, quiet)
      = Some ((m', out), s')
      ∧ rows m' = 1 ∧ cols m' = 1
      ∧ channels m' = 4 ∧ CV_MAT_DEPTH (flags m') = CV_32F.
Proof.
  assert (image_in bgra_store bgra_pixel (float_of_int <$> [10; 20; 30; 40]%Z))
    as Himg by (exists (Ints [10; 20; 30; 40]%Z); split_and!; reflexivity).
  assert (0 < rows bgra_pixel) as Hr by (simpl; lia).
  assert (0 < cols bgra_pixel) as Hc by (simpl; lia).
  split; [exact Himg|]. split; [exact Hr|]. split; [exact Hc|].
  exact (mat_to_array__leaves_float_header (S754_zero false) bgra_pixel
           bgra_store quiet _ Himg Hr Hc).
Defined.

(** X9: converting an image that [mat_to_array_] has already converted
    gives the same device buffer again and leaves the store as it is. *)
Theorem mat_to_array__twice {World : Type} (junk : f32)
    (m : Mat) (σ : gmap loc samples) (w : World) (fl : list f32) :
  image_in σ m fl →
  ∃ m' out s1 m'',
    mat_to_array_ junk m (σ, w) = Some ((m', out), s1)
    ∧ mat_to_array_ junk m' s1 = Some ((m'', out), s1).
Proof.
  intros Himg.
  destruct (mat_to_array__Some junk m σ w fl Himg) as (m' & Heq & _).
  destruct (mat_to_array__header junk m _ _ _ _ Heq)
    as (Hr & Hc & Hdata & Hcn & _).
  destruct Himg as (b & Hb & Hfl & Hlen).
  set (σ1 := <[data m := Floats fl]> σ) in *.
  assert (image_in σ1 m' fl) as Himg'.
  { exists (Floats fl). split_and!.
    - rewrite Hdata. apply lookup_insert_eq.
    - done.
    - by rewrite Hr, Hc, Hcn. }
  destruct (mat_to_array__Some junk m' σ1 w fl Himg') as (m'' & Heq' & _).
  exists m', (device_image m fl), (σ1, w), m''. split; [done|].
  rewrite Heq'. rewrite (device_image_ext m m') by done.
  rewrite Hdata. unfold σ1. by rewrite insert_insert_eq.
Qed.

Lemma mat_to_array__twice_gray_2x2 :
  image_in gray_2x2_store gray_2x2 (float_of_int <$> [1; 2; 3; 4]%Z)
  ∧ ∃ m' out s1 m'',
      mat_to_array_ (S754_zero false) gray_2x2 (gray_2x2_store, quiet)
      = Some ((m', out), s1)
      ∧ mat_to_array_ (S754_zero false) m' s1 = Some ((m'', out), s1).
Proof.
  assert (image_in gray_2x2_store gray_2x2 (float_of_int <$> [1; 2; 3; 4]%Z))
    as Himg by (exists (Ints [1; 2; 3; 4]%Z); split_and!; reflexivity).
  split; [exact Himg|].
  exact (mat_to_array__twice (S754_zero false) gray_2x2 gray_2x2_store quiet
           _ Himg).
Defined.

(** X10: [mat_to_array] can be called again on the same image: the
    second call sees the samples the first one saw and returns the same
    device buffer. *)
Theorem mat_to_array_repeatable {World : Type} (junk : f32)
    (m : Mat) (σ : gmap loc samples) (w : World) (fl : list f32) :
  image_in σ m fl →
  ∃ out σ1 σ2,
    mat_to_array junk m (σ, w) = Some (out, (σ1, w))
    ∧ mat_to_array junk m (σ1, w) = Some (out, (σ2, w)).
Proof.
  intros Himg.
  destruct (mat_to_array_Some junk m σ w fl Himg) as (σ1 & Heq & Hsub).
  assert (image_in σ1 m fl) as Himg1.
  { destruct Himg as (b & Hb & Hfl & Hlen). exists b.
    split_and!; [|done..]. by eapply lookup_weaken. }
  destruct (mat_to_array_Some junk m σ1 w fl Himg1) as (σ2 & Heq2 & _).
  by exists (device_image m fl), σ1, σ2.
Qed.

Lemma mat_to_array_repeatable_bgr_pixel :
  image_in bgr_store bgr_pixel (float_of_int <$> [10; 20; 30]%Z)
  ∧ ∃ out σ1 σ2,
      mat_to_array (S754_zero false) bgr_pixel (bgr_store, quiet)
      = Some (out, (σ1, quiet))
      ∧ mat_to_array (S754_zero false) bgr_pixel (σ1, quiet)
        = Some (out, (σ2, quiet)).
Proof.
  assert (image_in bgr_store bgr_pixel (float_of_int <$> [10; 20; 30]%Z)) as Himg
    by (exists (Ints [10; 20; 30]%Z); split_and!; reflexivity).
  split; [exact Himg|].
  exact (mat_to_array_repeatable (S754_zero false) bgr_pixel bgr_store quiet
           _ Himg).
Defined.

(** X14: every element of the buffer [array(h, w, C)] allocates is
    assigned: what [mat_to_array] returns does not depend on what fresh
    device memory holds. *)
Theorem mat_to_array_ignores_fresh_memory {World : Type} (junk junk' : f32)
    (m : Mat) (σ : gmap loc samples) (w : World) (fl : list f32) :
  image_in σ m fl →
  ∃ r, mat_to_array junk m (σ, w) = Some r
       ∧ mat_to_array junk' m (σ, w) = Some r.
Proof.
  intros Himg. eexists. split; by apply mat_to_array_explicit.
Qed.

Lemma mat_to_array_ignores_fresh_memory_bgr_pixel :
  image_in bgr_store bgr_pixel (float_of_int <$> [10; 20; 30]%Z)
  ∧ ∃ r, mat_to_array (S754_zero false) bgr_pixel (bgr_store, quiet) = Some r
         ∧ mat_to_array S754_nan bgr_pixel (bgr_store, quiet) = Some r.
Proof.
  assert (image_in bgr_store bgr_pixel (float_of_int <$> [10; 20; 30]%Z)) as Himg
    by (exists (Ints [10; 20; 30]%Z); split_and!; reflexivity).
  split; [exact Himg|].
  exact (mat_to_array_ignores_fresh_memory (S754_zero false) S754_nan bgr_pixel
           bgr_store quiet _ Himg).
Defined.

(** X15: the overload that returns its result gives, for a single-plane
    device matrix and a supported type, a header of [dims0] rows and
    [dims1] columns of that type over a new buffer holding the transposed
    elements cast to the type; nothing is reported. *)
Theorem array_to_mat_value_single_plane {World : Type}
    (MSG : string → World → World) (null : loc) (input : array f32) (type : Z)
    (σ : gmap loc samples) (w : World) (b : samples) :
  dims2 input = 1 → read_back type (host (T input)) = Some b →
  ∃ out',
    array_to_mat_value MSG null input type (σ, w)
    = Some (out', (<[data out' := b]> σ, w))
    ∧ σ !! data out' = None
    ∧ rows out' = dims0 input ∧ cols out' = dims1 input ∧ flags out' = type.
Proof.
  intros Hd Hb.
  exists (mkMat (dims0 input) (dims1 input) (CV_MAT_TYPE type) (fresh (dom σ))).
  unfold array_to_mat_value.
  erewrite bind_Some by (by apply array_to_mat_Some).
  split; [done|]. split; [apply not_elem_of_dom, is_fresh|].
  split; [done|]. split; [done|].
  unfold read_back in Hb. simpl. repeat case_decide; by subst.
Qed.

Lemma array_to_mat_value_single_plane_dev_2x2 :
  dims2 dev_2x2 = 1
  ∧ read_back CV_64F (host (T dev_2x2))
    = Some (Doubles (double_of_float <$> (float_of_int <$> [1; 2; 3; 4]%Z)))
  ∧ ∃ out',
      array_to_mat_value MSG_console 9%positive dev_2x2 CV_64F (∅, quiet)
      = Some (out',
              (<[data out' :=
                   Doubles (double_of_float <$> (float_of_int <$> [1; 2; 3; 4]%Z))]> ∅,
               quiet))
      ∧ (∅ : gmap loc samples) !! data out' = None
      ∧ rows out' = 2 ∧ cols out' = 2 ∧ flags out' = CV_64F.
Proof.
  split; [reflexivity|]. split; [reflexivity|].
  exact (array_to_mat_value_single_plane MSG_console 9%positive dev_2x2 CV_64F
           ∅ quiet _ eq_refl eq_refl).
Defined.
